(** * csv-to-arff: the conversion routine [csv_to_arff] of [csv-to-arff.py]

    A shallow embedding of the Python routine and of the standard-library
    operations it calls ([str.lower], [str.strip], [str.replace],
    [float], [dict.fromkeys], [str.join], [str]), followed by the
    properties of the routine.

    Text.  A Python [str] is modelled by [string]; a character of type
    [ascii] is read as the code point of the same number, so the model
    covers text whose code points lie in 0..255.  The result of
    [csv.reader] (the rows of fields) is an input of the model: the CSV
    tokenizer belongs to the standard library and no property below
    depends on how the rows were cut out of the file. *)

From Stdlib Require Import List String Ascii Arith Bool Lia PeanoNat.
From Stdlib Require Import DecimalString.
Import ListNotations.
Local Open Scope string_scope.
Local Open Scope list_scope.
Local Open Scope nat_scope.

Abbreviation str := string.

(** Python's [+] on [str]. *)
Infix "+++" := String.append (right associativity, at level 60).

(** ** Characters used by the source *)

Definition NUL : ascii := "000"%char.
Definition LF : ascii := "010"%char.
Definition CR : ascii := "013"%char.
Definition DQUOTE : ascii := "034"%char.
Definition SQUOTE : ascii := "'"%char.
Definition BACKSLASH : ascii := "\"%char.

Definition chr (c : ascii) : str := String c EmptyString.

(** ** Standard-library string operations *)

Module Py.

Definition ord (c : ascii) : nat := nat_of_ascii c.

Definition between (lo hi : nat) (c : ascii) : bool :=
  (lo <=? ord c) && (ord c <=? hi).

(** [str.lower] on code points 0..255: A-Z and the Latin-1 capitals
    (U+00C0..U+00DE without the multiplication sign U+00D7) move up
    by 32; every other code point is its own lower case. *)
Definition lower_char (c : ascii) : ascii :=
  if between 65 90 c || (between 192 222 c && negb (ord c =? 215))
  then ascii_of_nat (ord c + 32)
  else c.

Fixpoint lower (s : str) : str :=
  match s with
  | EmptyString => EmptyString
  | String c s' => String (lower_char c) (lower s')
  end.

(** [c in chars] for a one-character [c]. *)
Fixpoint mem_char (c : ascii) (chars : str) : bool :=
  match chars with
  | EmptyString => false
  | String d chars' => Ascii.eqb c d || mem_char c chars'
  end.

Fixpoint lstrip (chars s : str) : str :=
  match s with
  | EmptyString => EmptyString
  | String c s' => if mem_char c chars then lstrip chars s' else s
  end.

Fixpoint rstrip (chars s : str) : str :=
  match s with
  | EmptyString => EmptyString
  | String c s' =>
      match rstrip chars s' with
      | EmptyString => if mem_char c chars then EmptyString else chr c
      | r => String c r
      end
  end.

(** [s.strip(chars)]: the characters of [chars] are removed from both
    ends of [s], and only from the ends. *)
Definition strip (chars s : str) : str := rstrip chars (lstrip chars s).

(** [s.replace(old, new)] for a pattern [old] of one character, which
    is how the source calls it. *)
Fixpoint replace_char (old : ascii) (new s : str) : str :=
  match s with
  | EmptyString => EmptyString
  | String c s' =>
      if Ascii.eqb c old then new +++ replace_char old new s'
      else String c (replace_char old new s')
  end.

(** [sep.join(l)] *)
Definition join (sep : str) (l : list str) : str := String.concat sep l.

(** [str(n)] for a non-negative [int]. *)
Definition str_of_int (n : nat) : str :=
  NilZero.string_of_uint (Nat.to_uint n).

(** [not s] for a [str]. *)
Definition is_empty (s : str) : bool :=
  match s with EmptyString => true | _ => false end.

(** *** [float(s)]: does the conversion succeed?

    The recognizer follows CPython's [PyFloat_FromString]: the text
    is first mapped to ASCII, underscores between digits are checked
    and removed, white space is cut from both ends, and what is left
    must be read to its end by the number scanner or be one of
    [inf], [infinity], [nan] with an optional sign.  The scanner's
    limit of 10^9 digits is not modelled. *)

Definition is_digit (c : ascii) : bool := between 48 57 c.

Definition Py_ISSPACE (c : ascii) : bool :=
  between 9 13 c || (ord c =? 32).

Definition Py_UNICODE_ISSPACE (c : ascii) : bool :=
  between 9 13 c || between 28 32 c || (ord c =? 133) || (ord c =? 160).

Fixpoint is_ascii (s : str) : bool :=
  match s with
  | EmptyString => true
  | String c s' => (ord c <? 128) && is_ascii s'
  end.

(** No code point in 127..255 is a decimal digit, so the first one
    that is not white space ends the copy with a question mark. *)
Fixpoint transform_loop (s : str) : str :=
  match s with
  | EmptyString => EmptyString
  | String ch s' =>
      if ord ch <? 127 then String ch (transform_loop s')
      else if Py_UNICODE_ISSPACE ch then String " " (transform_loop s')
      else "?"
  end.

Definition TransformDecimalAndSpaceToASCII (s : str) : str :=
  if is_ascii s then s else transform_loop s.

(** C's [strchr] on the NUL-terminated buffer. *)
Fixpoint strchr (s : str) (c : ascii) : bool :=
  match s with
  | EmptyString => false
  | String d s' =>
      if Ascii.eqb d NUL then false
      else Ascii.eqb d c || strchr s' c
  end.

(** The copy loop of [_Py_string_to_number_with_underscores]: [None]
    is its [goto error]. *)
Fixpoint underscores_loop (prev : ascii) (s : str) : option str :=
  match s with
  | EmptyString => if Ascii.eqb prev "_" then None else Some EmptyString
  | String c s' =>
      if Ascii.eqb c NUL then None
      else if Ascii.eqb c "_" then
        if is_digit prev then underscores_loop c s' else None
      else if Ascii.eqb prev "_" && negb (is_digit c) then None
      else option_map (String c) (underscores_loop c s')
  end.

Definition string_to_number_with_underscores
    (innerfunc : str -> bool) (s : str) : bool :=
  if strchr s "_" then
    match underscores_loop NUL s with
    | Some dup => innerfunc dup
    | None => false
    end
  else innerfunc s.

Definition is_sign (c : ascii) : bool := Ascii.eqb c "+" || Ascii.eqb c "-".

Definition skip_sign (s : str) : str :=
  match s with
  | String c s' => if is_sign c then s' else s
  | EmptyString => s
  end.

(** Number of leading digits, and the text after them. *)
Fixpoint span_digits (s : str) : nat * str :=
  match s with
  | String c s' =>
      if is_digit c then let (n, r) := span_digits s' in (S n, r)
      else (0, s)
  | EmptyString => (0, s)
  end.

(** [_Py_dg_strtod]: [Some r] when a number was read and [r] is the
    text after it; [None] when no conversion was made. *)
Definition dg_strtod (s : str) : option str :=
  let s1 := skip_sign s in
  let (n1, s2) := span_digits s1 in
  let (n2, s3) :=
    match s2 with
    | String "." s2' => span_digits s2'
    | _ => (0, s2)
    end in
  if n1 + n2 =? 0 then None
  else
    match s3 with
    | String c s4 =>
        if Ascii.eqb c "e" || Ascii.eqb c "E" then
          let (n3, s6) := span_digits (skip_sign s4) in
          if n3 =? 0 then Some s3 else Some s6
        else Some s3
    | EmptyString => Some s3
    end.

Definition Py_TOLOWER (c : ascii) : ascii :=
  if between 65 90 c then ascii_of_nat (ord c + 32) else c.

(** [case_insensitive_match s t]: the text after the match. *)
Fixpoint case_insensitive_match (s t : str) : option str :=
  match t with
  | EmptyString => Some s
  | String d t' =>
      match s with
      | String c s' =>
          if Ascii.eqb (Py_TOLOWER c) d then case_insensitive_match s' t'
          else None
      | EmptyString => None
      end
  end.

Definition parse_inf_or_nan (p : str) : option str :=
  let s := skip_sign p in
  match case_insensitive_match s "inf" with
  | Some s1 =>
      match case_insensitive_match s1 "inity" with
      | Some s2 => Some s2
      | None => Some s1
      end
  | None => case_insensitive_match s "nan"
  end.

Definition PyOS_string_to_double (s : str) : option str :=
  match dg_strtod s with
  | Some r => Some r
  | None => parse_inf_or_nan s
  end.

Fixpoint skip_space (s : str) : str :=
  match s with
  | String c s' => if Py_ISSPACE c then skip_space s' else s
  | EmptyString => s
  end.

Fixpoint rstrip_space (s : str) : str :=
  match s with
  | EmptyString => EmptyString
  | String c s' =>
      match rstrip_space s' with
      | EmptyString => if Py_ISSPACE c then EmptyString else chr c
      | r => String c r
      end
  end.

Definition float_from_string_inner (s : str) : bool :=
  match skip_space s with
  | EmptyString => false
  | String c s' =>
      (* trailing white space is cut while more than one character
         is left *)
      match PyOS_string_to_double (String c (rstrip_space s')) with
      | Some EmptyString => true
      | _ => false
      end
  end.

(** [true] when [float(s)] returns, [false] when it raises
    [ValueError]. *)
Definition is_float (s : str) : bool :=
  string_to_number_with_underscores float_from_string_inner
    (TransformDecimalAndSpaceToASCII s).

(** *** [dict.fromkeys] and [list(d)]

    A [dict] keeps its keys in insertion order; assigning to a key
    that is present leaves its position unchanged. *)

Definition dict := list (str * unit).

Fixpoint dict_has (d : dict) (k : str) : bool :=
  match d with
  | [] => false
  | (k', _) :: d' => String.eqb k' k || dict_has d' k
  end.

Definition dict_setitem (d : dict) (k : str) (v : unit) : dict :=
  if dict_has d k
  then map (fun e => if String.eqb (fst e) k then (fst e, v) else e) d
  else d ++ [(k, v)].

Definition dict_fromkeys (keys : list str) : dict :=
  fold_left (fun d k => dict_setitem d k tt) keys [].

Definition list_of_dict (d : dict) : list str := map fst d.

End Py.

(** ** The state of one call

    The local variables of [csv_to_arff], under the names of the source.
    [allData] is the grid returned by the reader; its rows are mutable
    lists, and [attributes = allData[0]] is a second name of row 0, not
    a copy: the model has no [attributes] field and reads row 0 of
    [allData] wherever the source reads [attributes].  [writeFile] is
    the destination: [None] as long as it has not been opened, then the
    chunks written to it so far. *)

Inductive exn : Type :=
| IndexError
| OSError (msg : str).

Record locals : Type := mkLocals {
  allData : list (list str);
  dataType : list str;
  columnsTemp : list str;
  uniqueTemp : list str;
  uniqueOfColumn : list str;
  dataTypeTemp : list str;
  finalDataType : list str;
  attTypes : list str;
  p : nat;
  writeFile : option (list str)
}.

Definition set_allData v st :=
  mkLocals v (dataType st) (columnsTemp st) (uniqueTemp st) (uniqueOfColumn st)
    (dataTypeTemp st) (finalDataType st) (attTypes st) (p st) (writeFile st).
Definition set_dataType v st :=
  mkLocals (allData st) v (columnsTemp st) (uniqueTemp st) (uniqueOfColumn st)
    (dataTypeTemp st) (finalDataType st) (attTypes st) (p st) (writeFile st).
Definition set_columnsTemp v st :=
  mkLocals (allData st) (dataType st) v (uniqueTemp st) (uniqueOfColumn st)
    (dataTypeTemp st) (finalDataType st) (attTypes st) (p st) (writeFile st).
Definition set_uniqueTemp v st :=
  mkLocals (allData st) (dataType st) (columnsTemp st) v (uniqueOfColumn st)
    (dataTypeTemp st) (finalDataType st) (attTypes st) (p st) (writeFile st).
Definition set_uniqueOfColumn v st :=
  mkLocals (allData st) (dataType st) (columnsTemp st) (uniqueTemp st) v
    (dataTypeTemp st) (finalDataType st) (attTypes st) (p st) (writeFile st).
Definition set_dataTypeTemp v st :=
  mkLocals (allData st) (dataType st) (columnsTemp st) (uniqueTemp st)
    (uniqueOfColumn st) v (finalDataType st) (attTypes st) (p st) (writeFile st).
Definition set_finalDataType v st :=
  mkLocals (allData st) (dataType st) (columnsTemp st) (uniqueTemp st)
    (uniqueOfColumn st) (dataTypeTemp st) v (attTypes st) (p st) (writeFile st).
Definition set_attTypes v st :=
  mkLocals (allData st) (dataType st) (columnsTemp st) (uniqueTemp st)
    (uniqueOfColumn st) (dataTypeTemp st) (finalDataType st) v (p st) (writeFile st).
Definition set_p v st :=
  mkLocals (allData st) (dataType st) (columnsTemp st) (uniqueTemp st)
    (uniqueOfColumn st) (dataTypeTemp st) (finalDataType st) (attTypes st) v
    (writeFile st).
Definition set_writeFile v st :=
  mkLocals (allData st) (dataType st) (columnsTemp st) (uniqueTemp st)
    (uniqueOfColumn st) (dataTypeTemp st) (finalDataType st) (attTypes st) (p st) v.

(** The state at line 54, after the reader has returned [rows]. *)
Definition init_locals (rows : list (list str)) : locals :=
  mkLocals rows [] [] [] [] [] [] [] 0 None.

(** ** Statements: state and exceptions *)

Inductive res (A : Type) : Type :=
| Ok (a : A) (st : locals)
| Raise (e : exn) (st : locals).
Arguments Ok {A} a st.
Arguments Raise {A} e st.

Definition M (A : Type) : Type := locals -> res A.

Definition ret {A} (a : A) : M A := fun st => Ok a st.

Definition bind {A B} (m : M A) (k : A -> M B) : M B :=
  fun st =>
    match m st with
    | Ok a st' => k a st'
    | Raise e st' => Raise e st'
    end.

Definition raise {A} (e : exn) : M A := fun st => Raise e st.
Definition gets {A} (f : locals -> A) : M A := fun st => Ok (f st) st.
Definition modify (f : locals -> locals) : M unit := fun st => Ok tt (f st).

Notation "x <- m ;; k" := (bind m (fun x => k))
  (at level 61, m at next level, right associativity).
Notation "m ;; k" := (bind m (fun _ => k))
  (at level 61, right associativity).

(** [for x in l: body] *)
Fixpoint for_each {A} (l : list A) (body : A -> M unit) : M unit :=
  match l with
  | [] => ret tt
  | x :: l' => body x ;; for_each l' body
  end.

(** [range(a, b)] *)
Definition range (a b : nat) : list nat := seq a (b - a).

(** [l[i]] for [i >= 0]. *)
Definition getitem {A} (l : list A) (i : nat) : M A :=
  match nth_error l i with
  | Some x => ret x
  | None => raise IndexError
  end.

(** [l[i] = v] on a value [l] for [i >= 0]: the updated list, or
    [None] when [i] is out of range. *)
Fixpoint list_setitem {A} (l : list A) (i : nat) (v : A) : option (list A) :=
  match l, i with
  | [], _ => None
  | _ :: l', 0 => Some (v :: l')
  | x :: l', S i' => option_map (cons x) (list_setitem l' i' v)
  end.

(** [allData[i][j]] *)
Definition get_cell (i j : nat) : M str :=
  rows <- gets allData ;;
  row <- getitem rows i ;;
  getitem row j.

(** [allData[i][j] = v]: row [i] is looked up, then updated in place. *)
Definition set_cell (i j : nat) (v : str) : M unit :=
  rows <- gets allData ;;
  row <- getitem rows i ;;
  match list_setitem row j v with
  | None => raise IndexError
  | Some row' =>
      match list_setitem rows i row' with
      | None => raise IndexError
      | Some rows' => modify (set_allData rows')
      end
  end.

(** [attributes[i]], through the alias of row 0. *)
Definition get_attribute (i : nat) : M str := get_cell 0 i.

(** [x in l] *)
Definition list_contains (x : str) (l : list str) : bool :=
  existsb (String.eqb x) l.

(** ** The passes of [csv_to_arff], lines 71 to 120 *)

Section Passes.

(** [os.linesep] *)
Variable linesep : str.
Variables totalCols totalRows : nat.

(** Lines 71-75: add '0' for empty cells. *)
Definition fill_empty_cells : M unit :=
  for_each (range 0 totalCols) (fun j =>
    for_each (range 0 totalRows) (fun i =>
      c <- get_cell i j ;;
      if Py.is_empty c then set_cell i j "0" else ret tt)).

(** Lines 77-86: lower case, line ends, quotes. *)
Definition handle_quotes : M unit :=
  for_each (range 0 totalCols) (fun j =>
    for_each (range 1 totalRows) (fun i =>
      c <- get_cell i j ;;
      set_cell i j (Py.lower c) ;;
      c <- get_cell i j ;;
      set_cell i j
        (Py.replace_char DQUOTE (String BACKSLASH (chr DQUOTE))
           (Py.replace_char SQUOTE (String BACKSLASH (chr SQUOTE))
              (Py.strip (chr CR) (Py.strip (chr LF) (Py.strip linesep c))))) ;;
      c <- get_cell i j ;;
      if Py.is_float c then ret tt
      else
        c <- get_cell i j ;;
        set_cell i j (chr DQUOTE +++ c +++ chr DQUOTE))).

(** Lines 88-94: the distinct cells of each column. *)
Definition find_unique : M unit :=
  for_each (range 0 totalCols) (fun j =>
    for_each (range 1 totalRows) (fun i =>
      c <- get_cell i j ;;
      modify (fun st => set_columnsTemp (columnsTemp st ++ [c]) st)) ;;
    modify (fun st =>
      set_uniqueTemp (Py.list_of_dict (Py.dict_fromkeys (columnsTemp st))) st) ;;
    modify (fun st =>
      set_uniqueOfColumn
        (uniqueOfColumn st ++ ["{" +++ Py.join "," (uniqueTemp st) +++ "}"]) st) ;;
    modify (set_columnsTemp [])).

(** Lines 96-103: numeric or nominal, cell by cell, row after row. *)
Definition assign_cell_types : M unit :=
  for_each (range 1 totalRows) (fun j =>
    for_each (range 0 totalCols) (fun i =>
      c <- get_cell j i ;;
      if Py.is_float c
      then modify (fun st => set_dataType (dataType st ++ ["numeric"]) st)
      else modify (fun st => set_dataType (dataType st ++ ["nominal"]) st))).

(** Lines 105-114: the type of a column, from the types of its cells. *)
Definition assign_column_types : M unit :=
  for_each (range 0 totalCols) (fun j =>
    modify (set_p j) ;;
    for_each (range 0 (totalRows - 1)) (fun i =>
      dt <- gets dataType ;;
      k <- gets p ;;
      t <- getitem dt k ;;
      modify (fun st => set_dataTypeTemp (dataTypeTemp st ++ [t]) st) ;;
      modify (fun st => set_p (p st + totalCols) st)) ;;
    tmp <- gets dataTypeTemp ;;
    (if list_contains "nominal" tmp
     then modify (fun st => set_finalDataType (finalDataType st ++ ["nominal"]) st)
     else modify (fun st => set_finalDataType (finalDataType st ++ ["numeric"]) st)) ;;
    modify (set_dataTypeTemp [])).

(** Lines 116-120: the domain text of each attribute. *)
Definition assign_att_types : M unit :=
  n <- gets (fun st => List.length (finalDataType st)) ;;
  for_each (range 0 n) (fun i =>
    fdt <- gets finalDataType ;;
    t <- getitem fdt i ;;
    if String.eqb t "nominal" then
      uoc <- gets uniqueOfColumn ;;
      u <- getitem uoc i ;;
      modify (fun st => set_attTypes (attTypes st ++ [u]) st)
    else
      fdt <- gets finalDataType ;;
      t <- getitem fdt i ;;
      modify (fun st => set_attTypes (attTypes st ++ [t]) st)).

End Passes.

(** ** Writing the destination, lines 122-134 *)

(** What the operating system does to the destination during the call:
    nothing; a failure of [open]; or an [OSError] while the text is
    written.  The destination is a buffered text file, so such an
    error is raised by a [write] call (here the one that follows [k]
    successful ones) or, when the code makes no more than [k] calls, by
    the close at the end of the [with] block; the file is then left
    with [kept], whatever part of the output the operating system had
    accepted.  Nothing is assumed about [kept]. *)
Inductive dest_fault : Type :=
| NoFault
| OpenFault (e : str)
| WriteFault (k : nat) (kept e : str).

Definition nl : str := chr LF.

Section Writing.

Variable fault : dest_fault.
Variable relation : str.
Variables totalCols totalRows : nat.

(** [open(fileToWrite, 'w', encoding='utf-8')] *)
Definition open_w : M unit :=
  match fault with
  | OpenFault e => raise (OSError e)
  | _ => modify (set_writeFile (Some []))
  end.

(** The error surfaces: the file keeps [kept] and [OSError] is raised. *)
Definition fail_w (kept e : str) : M unit :=
  modify (set_writeFile (Some [kept])) ;;
  raise (OSError e).

(** [writeFile.write(chunk)] *)
Definition write (chunk : str) : M unit :=
  f <- gets writeFile ;;
  match f with
  | None => raise (OSError "I/O operation on closed file.")
  | Some chunks =>
      match fault with
      | WriteFault k kept e =>
          if List.length chunks =? k then fail_w kept e
          else modify (set_writeFile (Some (chunks ++ [chunk])))
      | _ => modify (set_writeFile (Some (chunks ++ [chunk])))
      end
  end.

(** The end of the [with] block: the file is flushed and closed. *)
Definition close_w : M unit :=
  match fault with
  | WriteFault _ kept e => fail_w kept e
  | _ => ret tt
  end.

Definition comment_head : str :=
  "%" +++ nl +++ "% Comments go after a '%' sign." +++ nl +++ "%" +++ nl.

Definition comment_relation : str :=
  "%" +++ nl +++ "% Relation: " +++ relation +++ nl +++ "%" +++ nl +++ "%" +++ nl.

Definition comment_counts : str :=
  "% Attributes: " +++ Py.str_of_int totalCols +++ "     " +++ "Instances: "
    +++ Py.str_of_int (totalRows - 1) +++ nl +++ "%" +++ nl +++ "%" +++ nl +++ nl.

Definition relation_line : str :=
  "@relation " +++ chr DQUOTE +++ relation +++ chr DQUOTE +++ nl +++ nl.

Definition attribute_line (name domain : str) : str :=
  "@attribute" +++ " '" +++ name +++ "' " +++ domain +++ nl.

Definition data_marker : str := nl +++ "@data" +++ nl.

Definition data_line (row : list str) : str := Py.join "," row +++ nl.

Definition write_arff : M unit :=
  open_w ;;
  write comment_head ;;
  write comment_relation ;;
  write comment_counts ;;
  write relation_line ;;
  for_each (range 0 totalCols) (fun i =>
    a <- get_attribute i ;;
    ats <- gets attTypes ;;
    t <- getitem ats i ;;
    write (attribute_line a t)) ;;
  write data_marker ;;
  for_each (range 1 totalRows) (fun i =>
    rows <- gets allData ;;
    row <- getitem rows i ;;
    write (data_line row)) ;;
  close_w.

End Writing.

(** ** The call *)

(** What reading the source gives: [FileNotFoundError], another
    exception with message [e], or the rows of the reader. *)
Inductive read_result : Type :=
| ReadNotFound
| ReadFailed (e : str)
| ReadOk (rows : list (list str)).

(** [os.name] and the [os.linesep] that goes with it. *)
Inductive platform : Type :=
| Posix
| Nt.

Definition linesep_of (pf : platform) : str :=
  match pf with
  | Posix => chr LF
  | Nt => String CR (chr LF)
  end.

(** The surroundings of a call. *)
Record world : Type := mkWorld {
  os_name : platform;
  open_read : str -> read_result;
  open_write : str -> dest_fault
}.

Definition os_linesep (w : world) : str := linesep_of (os_name w).

Inductive outcome : Type :=
| Returned
| Raised (e : exn).

(** What a call leaves behind: how it ended, the lines it printed, and
    the destination ([None]: never opened, neither created nor
    touched; [Some chunks]: created or truncated, then [chunks]
    written in this order).  The chunks are the arguments of the
    [write] calls; the bytes of the file are their concatenation after
    the text layer has translated line feeds and encoded the text,
    which is one fixed function of the chunks on a given platform.
    After an error while writing, the list holds the one text the
    operating system kept. *)
Record run : Type := mkRun {
  ended : outcome;
  printed : list str;
  dest : option (list str)
}.

(** [str(e)] *)
Definition str_of_exn (e : exn) : str :=
  match e with
  | IndexError => "list index out of range"
  | OSError msg => msg
  end.

(** Lines 67-120: everything between the two [try] blocks. *)
Definition process (linesep : str) : M (nat * nat) :=
  rows <- gets allData ;;
  _attributes <- getitem rows 0 ;;
  let totalCols := List.length _attributes in
  let totalRows := List.length rows in
  fill_empty_cells totalCols totalRows ;;
  handle_quotes linesep totalCols totalRows ;;
  find_unique totalCols totalRows ;;
  assign_cell_types totalCols totalRows ;;
  assign_column_types totalCols totalRows ;;
  assign_att_types ;;
  ret (totalCols, totalRows).

Definition csv_to_arff (w : world) (fileToRead fileToWrite relation : str) : run :=
  match open_read w fileToRead with
  | ReadNotFound =>
      mkRun Returned ["Error: File '" +++ fileToRead +++ "' not found."] None
  | ReadFailed e =>
      mkRun Returned ["Error reading file '" +++ fileToRead +++ "': " +++ e] None
  | ReadOk rows =>
      match process (os_linesep w) (init_locals rows) with
      | Raise e _ => mkRun (Raised e) [] None
      | Ok (totalCols, totalRows) st =>
          match write_arff (open_write w fileToWrite) relation totalCols totalRows st with
          | Ok _ st' =>
              mkRun Returned
                ["'" +++ fileToWrite +++ "' was converted from '" +++ fileToRead +++ "'"]
                (writeFile st')
          | Raise e st' =>
              mkRun Returned
                ["Error writing to file '" +++ fileToWrite +++ "': " +++ str_of_exn e]
                (writeFile st')
          end
      end
  end.

(** ** The example of the specification *)

Definition posix (rows : list (list str)) : world :=
  mkWorld Posix (fun _ => ReadOk rows) (fun _ => NoFault).

Definition example_rows : list (list str) :=
  [["name"; "age"; "score"]; ["Alice"; "30"; "9.5"]; ["Bob"; ""; "8"]].

(** * Definitions used by the properties *)

(** ** Cells of a grid and updates in place *)

(** [t[i][j]], where it exists. *)
Definition cell (t : list (list str)) (i j : nat) : option str :=
  match nth_error t i with
  | Some row => nth_error row j
  | None => None
  end.

(** The grid [t] with [f] applied to cell [(i, j)], when there is one. *)
Definition app_cell (f : str -> str) (i j : nat) (t : list (list str)) :
    list (list str) :=
  match nth_error t i with
  | Some row =>
      match nth_error row j with
      | Some c =>
          match list_setitem row j (f c) with
          | Some row' =>
              match list_setitem t i row' with
              | Some t' => t'
              | None => t
              end
          | None => t
          end
      | None => t
      end
  | None => t
  end.

Definition defined (t : list (list str)) (i j : nat) : bool :=
  match cell t i j with Some _ => true | None => false end.

Definition apply_col (f : str -> str) (j : nat) (rows : list nat) t :=
  fold_left (fun t i => app_cell f i j t) rows t.

Definition apply_cols (f : str -> str) (cols rows : list nat) t :=
  fold_left (fun t j => apply_col f j rows t) cols t.

Definition mem_nat (a : nat) (l : list nat) : bool := existsb (Nat.eqb a) l.

(** ** The two rewriting passes, cell by cell *)

(** What lines 74-75 do to a cell. *)
Definition fill0 (c : str) : str := if Py.is_empty c then "0" else c.

(** What lines 80-86 do to a cell. *)
Definition normalize (linesep c : str) : str :=
  let v :=
    Py.replace_char DQUOTE (String BACKSLASH (chr DQUOTE))
      (Py.replace_char SQUOTE (String BACKSLASH (chr SQUOTE))
         (Py.strip (chr CR) (Py.strip (chr LF) (Py.strip linesep (Py.lower c))))) in
  if Py.is_float v then v else chr DQUOTE +++ v +++ chr DQUOTE.

(** The bodies of the two loops, under names of their own. *)
Definition fill_body (i j : nat) : M unit :=
  c <- get_cell i j ;;
  if Py.is_empty c then set_cell i j "0" else ret tt.

Definition handle_body (linesep : str) (i j : nat) : M unit :=
  c <- get_cell i j ;;
  set_cell i j (Py.lower c) ;;
  c <- get_cell i j ;;
  set_cell i j
    (Py.replace_char DQUOTE (String BACKSLASH (chr DQUOTE))
       (Py.replace_char SQUOTE (String BACKSLASH (chr SQUOTE))
          (Py.strip (chr CR) (Py.strip (chr LF) (Py.strip linesep c))))) ;;
  c <- get_cell i j ;;
  if Py.is_float c then ret tt
  else
    c <- get_cell i j ;;
    set_cell i j (chr DQUOTE +++ c +++ chr DQUOTE).

(** A data row after both passes, for a header of [n] fields: the
    cells under the header are rewritten, cells beyond it are not
    visited. *)
Definition norm_row (linesep : str) (n : nat) (r : list str) : list str :=
  map (fun c => normalize linesep (fill0 c)) (firstn n r) ++ skipn n r.

Definition final_grid (linesep : str) (h : list str) (rows : list (list str)) :=
  map fill0 h :: map (norm_row linesep (List.length h)) rows.

(** No row is shorter than the header. *)
Definition wideb (h : list str) (rows : list (list str)) : bool :=
  forallb (fun r => List.length h <=? List.length r) rows.

(** ** The passes that only read the grid *)

(** The cell [(i, j)], where it exists. *)
Definition item (t : list (list str)) (i j : nat) : str :=
  match cell t i j with Some c => c | None => "" end.

Definition tag (c : str) : str := if Py.is_float c then "numeric" else "nominal".

(** Column [j] of the data rows [1 .. m-1]. *)
Definition column (t : list (list str)) (m j : nat) : list str :=
  map (fun i => item t i j) (range 1 m).

Definition brace (l : list str) : str :=
  "{" +++ Py.join "," (Py.list_of_dict (Py.dict_fromkeys l)) +++ "}".

Definition column_type (t : list (list str)) (m j : nat) : str :=
  if list_contains "nominal" (map (fun i => tag (item t (S i) j)) (range 0 (m - 1)))
  then "nominal" else "numeric".

Definition att_type (F U : list str) (i : nat) : str :=
  if String.eqb (nth i F "") "nominal" then nth i U "" else nth i F "".

(** The loop bodies of lines 88-120, under names of their own. *)
Definition collect_body (j i : nat) : M unit :=
  c <- get_cell i j ;;
  modify (fun st => set_columnsTemp (columnsTemp st ++ [c]) st).

Definition unique_body (m j : nat) : M unit :=
  for_each (range 1 m) (collect_body j) ;;
  modify (fun st =>
    set_uniqueTemp (Py.list_of_dict (Py.dict_fromkeys (columnsTemp st))) st) ;;
  modify (fun st =>
    set_uniqueOfColumn
      (uniqueOfColumn st ++ ["{" +++ Py.join "," (uniqueTemp st) +++ "}"]) st) ;;
  modify (set_columnsTemp []).

Definition tag_body (j i : nat) : M unit :=
  c <- get_cell j i ;;
  if Py.is_float c
  then modify (fun st => set_dataType (dataType st ++ ["numeric"]) st)
  else modify (fun st => set_dataType (dataType st ++ ["nominal"]) st).

Definition stride_body (n : nat) (i : nat) : M unit :=
  dt <- gets dataType ;;
  k <- gets p ;;
  t <- getitem dt k ;;
  modify (fun st => set_dataTypeTemp (dataTypeTemp st ++ [t]) st) ;;
  modify (fun st => set_p (p st + n) st).

Definition column_type_body (n m j : nat) : M unit :=
  modify (set_p j) ;;
  for_each (range 0 (m - 1)) (stride_body n) ;;
  tmp <- gets dataTypeTemp ;;
  (if list_contains "nominal" tmp
   then modify (fun st => set_finalDataType (finalDataType st ++ ["nominal"]) st)
   else modify (fun st => set_finalDataType (finalDataType st ++ ["numeric"]) st)) ;;
  modify (set_dataTypeTemp []).

Definition att_body (i : nat) : M unit :=
  fdt <- gets finalDataType ;;
  t <- getitem fdt i ;;
  if String.eqb t "nominal" then
    uoc <- gets uniqueOfColumn ;;
    u <- getitem uoc i ;;
    modify (fun st => set_attTypes (attTypes st ++ [u]) st)
  else
    fdt <- gets finalDataType ;;
    t <- getitem fdt i ;;
    modify (fun st => set_attTypes (attTypes st ++ [t]) st).

(** The lists these passes build, as functions of the grid [T] of
    [m] rows under a header of [n] fields. *)
Definition cell_types (T : list (list str)) (n m : nat) : list str :=
  flat_map (fun i => map (fun j => tag (item T i j)) (range 0 n)) (range 1 m).

Definition unique_texts (T : list (list str)) (n m : nat) : list str :=
  map (fun j => brace (column T m j)) (range 0 n).

Definition column_types (T : list (list str)) (n m : nat) : list str :=
  map (column_type T m) (range 0 n).

Definition att_texts (T : list (list str)) (n m : nat) : list str :=
  map (att_type (column_types T n m) (unique_texts T n m)) (range 0 n).

(** ** Writing *)

(** The bodies of the two writing loops. *)
Definition attr_body (fault : dest_fault) (i : nat) : M unit :=
  a <- get_attribute i ;;
  ats <- gets attTypes ;;
  t <- getitem ats i ;;
  write fault (attribute_line a t).

Definition data_body (fault : dest_fault) (i : nat) : M unit :=
  rows <- gets allData ;;
  row <- getitem rows i ;;
  write fault (data_line row).

(** The chunks of a complete destination. *)
Definition arff_chunks (relation : str) (names domains : list str)
    (data : list (list str)) : list str :=
  [comment_head; comment_relation relation;
   comment_counts (List.length names) (S (List.length data));
   relation_line relation]
  ++ map (fun nd => attribute_line (fst nd) (snd nd)) (combine names domains)
  ++ [data_marker]
  ++ map data_line data.

(** ** Notions used in the statements *)

(** [l.index(x)] *)
Fixpoint index (x : str) (l : list str) : option nat :=
  match l with
  | [] => None
  | y :: l' => if String.eqb y x then Some 0 else option_map S (index x l')
  end.

Definition uniq (l : list str) : list str := Py.list_of_dict (Py.dict_fromkeys l).

(** Every data-row cell of column [j] parses as a floating-point
    number. *)
Definition column_parses (st : locals) (j : nat) : Prop :=
  forall i c, 1 <= i -> cell (allData st) i j = Some c -> Py.is_float c = true.

(** Some data-row cell of column [j] does not. *)
Definition column_fails (st : locals) (j : nat) : Prop :=
  exists i c, 1 <= i /\ cell (allData st) i j = Some c /\ Py.is_float c = false.

(** ** The normalized cell in the words of the specification *)

(** [s] without the copies of [suffix] that end it. *)
Fixpoint drop_trailing (suffix s : str) : str :=
  match s with
  | EmptyString => EmptyString
  | String c s' =>
      let r := String c (drop_trailing suffix s') in
      if String.eqb r suffix then EmptyString else r
  end.

(** [s] without the characters of [chars], wherever they stand. *)
Fixpoint remove_chars (chars s : str) : str :=
  match s with
  | EmptyString => EmptyString
  | String c s' =>
      if Py.mem_char c chars then remove_chars chars s'
      else String c (remove_chars chars s')
  end.

(** Lower case; trailing line-ending sequences removed, and every line
    feed and carriage return removed, at the ends or inside; each
    quote character prefixed with a backslash; wrapped in double
    quotes if and only if the result does not parse as a
    floating-point number. *)
Definition spec_normalized_cell (linesep c : str) : str :=
  let v := remove_chars (String LF (chr CR)) (drop_trailing linesep (Py.lower c)) in
  let v :=
    Py.replace_char DQUOTE (String BACKSLASH (chr DQUOTE))
      (Py.replace_char SQUOTE (String BACKSLASH (chr SQUOTE)) v) in
  if Py.is_float v then v else chr DQUOTE +++ v +++ chr DQUOTE.

(** ** Inputs of the examples *)

(** The field [a<LF>b], as the reader returns it for a quoted field
    that spans two lines. *)
Definition a_lf_b : str := String "a" (String LF "b").

(** A world in which no file can be found. *)
Definition no_files : world :=
  mkWorld Posix (fun _ => ReadNotFound) (fun _ => NoFault).

(** ** The strided reading of the flat list of cell types *)

(** The flat list built by lines 96-103 when the type of cell [(i, j)]
    is [g i j], and the type lines 105-114 read off it for column [j]. *)
Definition flat_types (g : nat -> nat -> str) (n m : nat) : list str :=
  flat_map (fun i => map (g i) (range 0 n)) (range 1 m).

Definition ctype (g : nat -> nat -> str) (m j : nat) : str :=
  if list_contains "nominal" (map (fun i => g (S i) j) (range 0 (m - 1)))
  then "nominal" else "numeric".

(** ** The destination as text *)

(** The text of the destination: its chunks, one after the other. *)
Definition file_text (chunks : list str) : str :=
  fold_right String.append EmptyString chunks.

(** The lines of a text, a line feed ending each line but the last:
    [s.split("\n")]. *)
Fixpoint split_lf (s : str) : list str :=
  match s with
  | EmptyString => [EmptyString]
  | String c s' =>
      if Ascii.eqb c LF then EmptyString :: split_lf s'
      else
        match split_lf s' with
        | [] => [chr c]
        | l :: ls => String c l :: ls
        end
  end.

(** The lines [ls], each followed by a line feed. *)
Fixpoint unlines (ls : list str) : str :=
  match ls with
  | [] => EmptyString
  | l :: ls' => l +++ String LF (unlines ls')
  end.

(** [s] contains a line feed. *)
Definition has_lf (s : str) : bool := Py.mem_char LF s.

(** No field of the row contains a line feed. *)
Definition lf_free_row (r : list str) : bool :=
  forallb (fun c => negb (has_lf c)) r.

(** A header field of two lines, as the reader returns it for a quoted
    field: [a<LF>@attribute 'b' numeric]. *)
Definition name_of_two_lines : str :=
  String "a" (String LF "@attribute 'b' numeric").

(** ** Notions used beyond the claims *)

(** A world whose source reads as [rows] and whose destination fails as
    [fault] says. *)
Definition faulty (rows : list (list str)) (fault : dest_fault) : world :=
  mkWorld Posix (fun _ => ReadOk rows) (fun _ => fault).

(** With the destination open, [m] either fails as the fault says,
    leaving [kept] in the file, or goes on, having changed nothing but
    the chunks written. *)
Definition fails_or_writes (kept e : str) (st : locals) (m : M unit) : Prop :=
  forall cs,
    m (set_writeFile (Some cs) st)
      = Raise (OSError e) (set_writeFile (Some [kept]) st) \/
    exists cs', m (set_writeFile (Some cs) st) = Ok tt (set_writeFile (Some cs') st).

(** With the destination open, [m] fails as the fault says. *)
Definition fails (kept e : str) (st : locals) (m : M unit) : Prop :=
  forall cs,
    m (set_writeFile (Some cs) st)
      = Raise (OSError e) (set_writeFile (Some [kept]) st).

(** The first character of [s] belongs to [chars]. *)
Definition head_in (chars s : str) : bool :=
  match s with
  | EmptyString => false
  | String c _ => Py.mem_char c chars
  end.

(** The last character of [s] belongs to [chars]. *)
Fixpoint last_in (chars s : str) : bool :=
  match s with
  | EmptyString => false
  | String c EmptyString => Py.mem_char c chars
  | String _ s' => last_in chars s'
  end.

(** Every occurrence of the character [q] in [s] comes directly after a
    backslash, [prev] being the character before [s]. *)
Fixpoint guarded (q prev : ascii) (s : str) : bool :=
  match s with
  | EmptyString => true
  | String c s' =>
      (if Ascii.eqb c q then Ascii.eqb prev BACKSLASH else true)
      && guarded q c s'
  end.

(** * Properties *)

(** ** The model on examples *)

Example lower_ex : Py.lower "Alice O'Neil" = "alice o'neil".
Proof. reflexivity. Qed.

Example strip_posix_ex :
  Py.strip (chr CR) (Py.strip (chr LF) (Py.strip (chr LF)
     (String "a" (String LF (String CR EmptyString)))))
  = String "a" (String LF EmptyString).
Proof. reflexivity. Qed.

Example is_float_yes :
  map Py.is_float
    ["0"; "1."; "1.e5"; ".5"; "+1"; "-1"; " 1 "; "1_0"; "1e1_0"; "inf";
     "Infinity"; "INF"; "+nan"; "-infinity"; "9.5"; "1e999999999999";
     String "009" (String "1" (String LF EmptyString));
     String "160" "1"; String "1" (String "133" EmptyString)]
  = repeat true 19.
Proof. vm_compute. reflexivity. Qed.

Example is_float_no :
  map Py.is_float
    [""; "  "; "."; "1e"; "1e+"; "+-1"; "1__0"; "_1"; "1_"; "1_.0"; "infin";
     "1 2"; "0x10"; "1,5"; "1e5_"; "1._0"; "1_e5"; "in_f"; "1 _0"; "alice";
     String "028" "1"; String "031" "1"; String "1" (String NUL EmptyString);
     String NUL "1"; String "233" "1"; String "127" "1";
     String "1" (String "127" (String "160" EmptyString)); String "178" EmptyString]
  = repeat false 28.
Proof. vm_compute. reflexivity. Qed.

Example str_of_int_ex : map Py.str_of_int [0; 7; 42; 100] = ["0"; "7"; "42"; "100"].
Proof. reflexivity. Qed.

Example fromkeys_ex :
  Py.list_of_dict (Py.dict_fromkeys ["b"; "a"; "b"; "c"; "a"]) = ["b"; "a"; "c"].
Proof. reflexivity. Qed.

Example example_run :
  csv_to_arff (posix example_rows) "in.csv" "out.arff" "people" =
  mkRun Returned ["'out.arff' was converted from 'in.csv'"]
    (Some [comment_head; comment_relation "people"; comment_counts 3 3;
           relation_line "people";
           attribute_line "name"
             ("{" +++ chr DQUOTE +++ "alice" +++ chr DQUOTE +++ ","
                  +++ chr DQUOTE +++ "bob" +++ chr DQUOTE +++ "}");
           attribute_line "age" "numeric";
           attribute_line "score" "numeric";
           data_marker;
           data_line [chr DQUOTE +++ "alice" +++ chr DQUOTE; "30"; "9.5"];
           data_line [chr DQUOTE +++ "bob" +++ chr DQUOTE; "0"; "8"]]).
Proof. vm_compute. reflexivity. Qed.

(** ** Lists updated by index *)

Section ListSetitem.

Context {A : Type}.

Lemma list_setitem_Some (l : list A) i v :
  i < List.length l -> exists l', list_setitem l i v = Some l'.
Proof.
  revert i; induction l as [|x l IH]; intros [|i] Hi; simpl in *; try lia.
  - eauto.
  - destruct (IH i) as [l' ->]; [lia|]. simpl. eauto.
Qed.

Lemma list_setitem_None (l : list A) i v :
  List.length l <= i -> list_setitem l i v = None.
Proof.
  revert i; induction l as [|x l IH]; intros [|i] Hi; simpl in *;
    try reflexivity; try lia.
  rewrite IH by lia. reflexivity.
Qed.

Lemma list_setitem_nth (l l' : list A) i v k :
  list_setitem l i v = Some l' ->
  nth_error l' k = if k =? i then Some v else nth_error l k.
Proof.
  revert l' i k; induction l as [|x l IH]; intros l' [|i] k H; simpl in H;
    try discriminate.
  - injection H as <-. destruct k; reflexivity.
  - destruct (list_setitem l i v) as [l1|] eqn:E; simpl in H; [|discriminate].
    injection H as <-. destruct k; simpl; [reflexivity|].
    apply IH; assumption.
Qed.

Lemma list_setitem_length (l l' : list A) i v :
  list_setitem l i v = Some l' -> List.length l' = List.length l.
Proof.
  revert l' i; induction l as [|x l IH]; intros l' [|i] H; simpl in H;
    try discriminate.
  - injection H as <-. reflexivity.
  - destruct (list_setitem l i v) as [l1|] eqn:E; simpl in H; [|discriminate].
    injection H as <-. simpl. f_equal. eapply IH; eassumption.
Qed.

Lemma list_setitem_same (l : list A) i v :
  nth_error l i = Some v -> list_setitem l i v = Some l.
Proof.
  revert i; induction l as [|x l IH]; intros [|i] H; simpl in *;
    try discriminate.
  - congruence.
  - rewrite IH by assumption. reflexivity.
Qed.

End ListSetitem.

(** ** Cells of a grid *)

Lemma app_cell_length f i j t : List.length (app_cell f i j t) = List.length t.
Proof.
  unfold app_cell.
  destruct (nth_error t i) as [row|]; [|reflexivity].
  destruct (nth_error row j) as [c|]; [|reflexivity].
  destruct (list_setitem row j (f c)) as [row'|]; [|reflexivity].
  destruct (list_setitem t i row') as [t'|] eqn:E; [|reflexivity].
  eapply list_setitem_length; eassumption.
Qed.

Lemma app_cell_cell f i j t a b :
  cell (app_cell f i j t) a b =
  if (a =? i) && (b =? j) then option_map f (cell t a b) else cell t a b.
Proof.
  unfold app_cell, cell.
  destruct (nth_error t i) as [row|] eqn:Hrow.
  - destruct (nth_error row j) as [c|] eqn:Hc.
    + destruct (list_setitem_Some row j (f c)) as [row' Hr'].
      { apply nth_error_Some. congruence. }
      destruct (list_setitem_Some t i row') as [t' Ht'].
      { apply nth_error_Some. congruence. }
      rewrite Hr', Ht'.
      rewrite (list_setitem_nth _ _ _ _ a Ht').
      destruct (Nat.eqb_spec a i) as [->|Hai]; simpl.
      * rewrite (list_setitem_nth _ _ _ _ b Hr'), Hrow.
        destruct (Nat.eqb_spec b j) as [->|Hbj]; [rewrite Hc|]; reflexivity.
      * reflexivity.
    + destruct (Nat.eqb_spec a i) as [->|Hai]; simpl; [|reflexivity].
      rewrite Hrow. destruct (Nat.eqb_spec b j) as [->|Hbj]; [|reflexivity].
      rewrite Hc. reflexivity.
  - destruct (Nat.eqb_spec a i) as [->|Hai]; simpl; [|reflexivity].
    rewrite Hrow. destruct (b =? j); reflexivity.
Qed.

Lemma grid_ext (t1 t2 : list (list str)) :
  List.length t1 = List.length t2 ->
  (forall a b, cell t1 a b = cell t2 a b) ->
  t1 = t2.
Proof.
  intros Hlen Hc. apply nth_error_ext. intro a.
  destruct (nth_error t1 a) as [r1|] eqn:E1, (nth_error t2 a) as [r2|] eqn:E2.
  - f_equal. apply nth_error_ext. intro b.
    specialize (Hc a b). unfold cell in Hc. rewrite E1, E2 in Hc. exact Hc.
  - apply nth_error_None in E2. assert (a < List.length t1) by (apply nth_error_Some; congruence). lia.
  - apply nth_error_None in E1. assert (a < List.length t2) by (apply nth_error_Some; congruence). lia.
  - reflexivity.
Qed.

(** ** Reading and writing a cell *)

Lemma set_allData_id st : set_allData (allData st) st = st.
Proof. destruct st; reflexivity. Qed.

Lemma get_cell_run i j st :
  get_cell i j st =
  match cell (allData st) i j with
  | Some c => Ok c st
  | None => Raise IndexError st
  end.
Proof.
  unfold get_cell, cell, bind, gets, getitem.
  destruct (nth_error (allData st) i) as [row|]; [|reflexivity].
  unfold ret. destruct (nth_error row j); reflexivity.
Qed.

Lemma set_cell_run i j v st :
  set_cell i j v st =
  match cell (allData st) i j with
  | Some _ => Ok tt (set_allData (app_cell (fun _ => v) i j (allData st)) st)
  | None => Raise IndexError st
  end.
Proof.
  unfold set_cell, cell, app_cell, bind, gets, getitem.
  destruct (nth_error (allData st) i) as [row|] eqn:Hrow; [|reflexivity].
  unfold ret, raise, modify.
  destruct (nth_error row j) as [c|] eqn:Hc.
  - destruct (list_setitem_Some row j v) as [row' Hr'].
    { apply nth_error_Some. congruence. }
    destruct (list_setitem_Some (allData st) i row') as [t' Ht'].
    { apply nth_error_Some. congruence. }
    rewrite Hr', Ht'. reflexivity.
  - rewrite list_setitem_None by (apply nth_error_None; assumption).
    reflexivity.
Qed.

Lemma app_cell_const f i j t c :
  cell t i j = Some c -> app_cell (fun _ => f c) i j t = app_cell f i j t.
Proof.
  unfold cell, app_cell. destruct (nth_error t i) as [row|]; [|reflexivity].
  intros ->. reflexivity.
Qed.

Lemma app_cell_same f i j t c :
  cell t i j = Some c -> f c = c -> app_cell f i j t = t.
Proof.
  intros Hc Hf. apply grid_ext; [apply app_cell_length|].
  intros a b. rewrite app_cell_cell.
  destruct (Nat.eqb_spec a i) as [->|]; simpl; [|reflexivity].
  destruct (Nat.eqb_spec b j) as [->|]; [|reflexivity].
  rewrite Hc. simpl. congruence.
Qed.

Lemma app_cell_twice f g i j t :
  app_cell g i j (app_cell f i j t) = app_cell (fun c => g (f c)) i j t.
Proof.
  apply grid_ext; [rewrite !app_cell_length; reflexivity|].
  intros a b. rewrite !app_cell_cell.
  destruct ((a =? i) && (b =? j)); [|reflexivity].
  destruct (cell t a b); reflexivity.
Qed.

(** ** Loops that rewrite cells in place *)

Lemma mem_nat_In a l : mem_nat a l = true <-> In a l.
Proof.
  unfold mem_nat. rewrite existsb_exists. split.
  - intros (x & Hx & E). apply Nat.eqb_eq in E. subst. assumption.
  - intro H. exists a. split; [assumption|apply Nat.eqb_refl].
Qed.

Lemma mem_nat_seq a lo n : mem_nat a (seq lo n) = (lo <=? a) && (a <? lo + n).
Proof.
  destruct (mem_nat a (seq lo n)) eqn:E.
  - apply mem_nat_In, in_seq in E. symmetry. apply andb_true_iff.
    split; [apply Nat.leb_le|apply Nat.ltb_lt]; lia.
  - symmetry. apply not_true_is_false. intro H. apply andb_true_iff in H.
    destruct H as [H1 H2]. apply Nat.leb_le in H1. apply Nat.ltb_lt in H2.
    assert (In a (seq lo n)) as Hin by (apply in_seq; lia).
    apply mem_nat_In in Hin. congruence.
Qed.

Lemma defined_app_cell f i j t a b :
  defined (app_cell f i j t) a b = defined t a b.
Proof.
  unfold defined. rewrite app_cell_cell.
  destruct ((a =? i) && (b =? j)); [|reflexivity].
  destruct (cell t a b); reflexivity.
Qed.

Lemma defined_apply_col f j rows t a b :
  defined (apply_col f j rows t) a b = defined t a b.
Proof.
  unfold apply_col. revert t. induction rows as [|i rows IH]; intro t; simpl.
  - reflexivity.
  - rewrite IH. apply defined_app_cell.
Qed.

Lemma defined_apply_cols f cols rows t a b :
  defined (apply_cols f cols rows t) a b = defined t a b.
Proof.
  unfold apply_cols. revert t. induction cols as [|j cols IH]; intro t; simpl.
  - reflexivity.
  - rewrite IH. apply defined_apply_col.
Qed.

Lemma apply_col_length f j rows t :
  List.length (apply_col f j rows t) = List.length t.
Proof.
  unfold apply_col. revert t. induction rows as [|i rows IH]; intro t; simpl.
  - reflexivity.
  - rewrite IH. apply app_cell_length.
Qed.

Lemma apply_cols_length f cols rows t :
  List.length (apply_cols f cols rows t) = List.length t.
Proof.
  unfold apply_cols. revert t. induction cols as [|j cols IH]; intro t; simpl.
  - reflexivity.
  - rewrite IH. apply apply_col_length.
Qed.

Lemma apply_col_cell f j rows t a b :
  NoDup rows ->
  cell (apply_col f j rows t) a b =
  if (b =? j) && mem_nat a rows then option_map f (cell t a b) else cell t a b.
Proof.
  unfold apply_col. intro Hnd. revert t.
  induction Hnd as [|i rows Hni Hnd IH]; intro t; simpl.
  - rewrite andb_false_r. reflexivity.
  - rewrite IH, app_cell_cell.
    destruct (Nat.eqb_spec b j) as [->|Hbj]; simpl.
    + rewrite andb_true_r.
      destruct (Nat.eqb_spec a i) as [->|Hai]; simpl; [|reflexivity].
      destruct (mem_nat i rows) eqn:E; [|reflexivity].
      apply mem_nat_In in E. contradiction.
    + rewrite andb_false_r. reflexivity.
Qed.

Lemma apply_cols_cell f cols rows t a b :
  NoDup cols -> NoDup rows ->
  cell (apply_cols f cols rows t) a b =
  if mem_nat b cols && mem_nat a rows then option_map f (cell t a b)
  else cell t a b.
Proof.
  unfold apply_cols. intros Hc Hr. revert t.
  induction Hc as [|j cols Hnj Hc IH]; intro t; simpl.
  - reflexivity.
  - rewrite IH, apply_col_cell by assumption.
    destruct (Nat.eqb_spec b j) as [->|Hbj]; simpl; [|reflexivity].
    destruct (mem_nat j cols) eqn:E.
    + apply mem_nat_In in E. contradiction.
    + reflexivity.
Qed.

Lemma forallb_pointwise {A} (g h : A -> bool) l :
  (forall x, g x = h x) -> forallb g l = forallb h l.
Proof.
  intro E. induction l as [|x l IH]; simpl; [reflexivity|].
  rewrite E, IH. reflexivity.
Qed.

Section CellLoops.

Variable f : str -> str.
Variable body : nat -> nat -> M unit.

(** One step of the loop rewrites the cell by [f], or raises
    [IndexError] where there is no such cell. *)
Hypothesis body_run : forall i j st,
  body i j st =
  match cell (allData st) i j with
  | Some _ => Ok tt (set_allData (app_cell f i j (allData st)) st)
  | None => Raise IndexError st
  end.

Lemma loop_col_run j rows st :
  match for_each rows (fun i => body i j) st with
  | Ok _ st' =>
      forallb (fun i => defined (allData st) i j) rows = true /\
      st' = set_allData (apply_col f j rows (allData st)) st
  | Raise e _ =>
      forallb (fun i => defined (allData st) i j) rows = false /\
      e = IndexError
  end.
Proof.
  revert st. induction rows as [|i rows IH]; intro st.
  - simpl. unfold ret. split; [reflexivity|].
    unfold apply_col. simpl. symmetry. apply set_allData_id.
  - cbn [for_each forallb]. unfold bind at 1. rewrite body_run.
    assert (defined (allData st) i j =
            match cell (allData st) i j with Some _ => true | None => false end)
      as -> by reflexivity.
    destruct (cell (allData st) i j) as [c|] eqn:Hc; [|split; reflexivity].
    specialize (IH (set_allData (app_cell f i j (allData st)) st)).
    destruct (for_each rows (fun i0 => body i0 j) _) as [[] st'|e st'].
    + destruct IH as [Hd ->]. simpl in *. split.
      * rewrite <- Hd. apply forallb_pointwise.
        intro a. symmetry. apply defined_app_cell.
      * reflexivity.
    + destruct IH as [Hd ->]. simpl in *. split; [|reflexivity].
      rewrite <- Hd. apply forallb_pointwise.
      intro a. symmetry. apply defined_app_cell.
Qed.

Lemma loop_cols_run cols rows st :
  match for_each cols (fun j => for_each rows (fun i => body i j)) st with
  | Ok _ st' =>
      forallb (fun j => forallb (fun i => defined (allData st) i j) rows) cols
        = true /\
      st' = set_allData (apply_cols f cols rows (allData st)) st
  | Raise e _ =>
      forallb (fun j => forallb (fun i => defined (allData st) i j) rows) cols
        = false /\
      e = IndexError
  end.
Proof.
  revert st. induction cols as [|j cols IH]; intro st.
  - simpl. unfold ret. split; [reflexivity|].
    unfold apply_cols. simpl. symmetry. apply set_allData_id.
  - cbn [for_each forallb]. unfold bind at 1.
    pose proof (loop_col_run j rows st) as Hcol.
    destruct (for_each rows (fun i => body i j) st) as [[] st1|e st1].
    + destruct Hcol as [Hd ->]. rewrite Hd. simpl.
      specialize (IH (set_allData (apply_col f j rows (allData st)) st)).
      destruct (for_each cols _ _) as [[] st'|e st'].
      * destruct IH as [Hd' ->]. simpl in *. split; [|reflexivity].
        rewrite <- Hd'. apply forallb_pointwise.
        intro b. apply forallb_pointwise. intro a.
        symmetry. apply defined_apply_col.
      * destruct IH as [Hd' ->]. simpl in *. split; [|reflexivity].
        rewrite <- Hd'. apply forallb_pointwise.
        intro b. apply forallb_pointwise. intro a.
        symmetry. apply defined_apply_col.
    + destruct Hcol as [Hd ->]. rewrite Hd. split; reflexivity.
Qed.

End CellLoops.

(** ** The two rewriting passes *)

Lemma fill_empty_cells_unfold n m :
  fill_empty_cells n m =
  for_each (range 0 n) (fun j => for_each (range 0 m) (fun i => fill_body i j)).
Proof. reflexivity. Qed.

Lemma handle_quotes_unfold linesep n m :
  handle_quotes linesep n m =
  for_each (range 0 n) (fun j =>
    for_each (range 1 m) (fun i => handle_body linesep i j)).
Proof. reflexivity. Qed.

Lemma cell_after_set v i j t c :
  cell t i j = Some c -> cell (app_cell (fun _ => v) i j t) i j = Some v.
Proof.
  intro Hc. rewrite app_cell_cell, !Nat.eqb_refl, Hc. reflexivity.
Qed.

Lemma set_set v1 v2 i j t :
  app_cell (fun _ => v2) i j (app_cell (fun _ => v1) i j t)
  = app_cell (fun _ => v2) i j t.
Proof. apply app_cell_twice. Qed.

Lemma fill_body_run i j st :
  fill_body i j st =
  match cell (allData st) i j with
  | Some _ => Ok tt (set_allData (app_cell fill0 i j (allData st)) st)
  | None => Raise IndexError st
  end.
Proof.
  unfold fill_body, bind. rewrite get_cell_run.
  destruct (cell (allData st) i j) as [c|] eqn:Hc; [|reflexivity].
  destruct (Py.is_empty c) eqn:He.
  - rewrite set_cell_run, Hc.
    rewrite <- (app_cell_const fill0 i j _ c Hc). unfold fill0. rewrite He.
    reflexivity.
  - rewrite (app_cell_same fill0 i j _ c Hc).
    + rewrite set_allData_id. reflexivity.
    + unfold fill0. rewrite He. reflexivity.
Qed.

Lemma handle_body_run linesep i j st :
  handle_body linesep i j st =
  match cell (allData st) i j with
  | Some _ => Ok tt (set_allData (app_cell (normalize linesep) i j (allData st)) st)
  | None => Raise IndexError st
  end.
Proof.
  unfold handle_body, bind. rewrite get_cell_run.
  destruct (cell (allData st) i j) as [c|] eqn:Hc; [|reflexivity].
  rewrite set_cell_run, Hc.
  rewrite get_cell_run. cbn [allData set_allData].
  rewrite (cell_after_set _ _ _ _ _ Hc).
  rewrite set_cell_run. cbn [allData set_allData].
  rewrite (cell_after_set _ _ _ _ _ Hc). rewrite set_set.
  rewrite get_cell_run. cbn [allData set_allData].
  rewrite (cell_after_set _ _ _ _ _ Hc).
  rewrite <- (app_cell_const (normalize linesep) i j _ c Hc).
  unfold normalize.
  destruct (Py.is_float _) eqn:Hf.
  - reflexivity.
  - rewrite get_cell_run. cbn [allData set_allData].
    rewrite (cell_after_set _ _ _ _ _ Hc).
    rewrite set_cell_run. cbn [allData set_allData].
    rewrite (cell_after_set _ _ _ _ _ Hc). rewrite set_set.
    reflexivity.
Qed.

(** ** The grid after the two rewriting passes *)

Lemma nth_error_map_firstn {A} (g : A -> A) n (r : list A) b :
  nth_error (map g (firstn n r) ++ skipn n r) b =
  if b <? n then option_map g (nth_error r b) else nth_error r b.
Proof.
  revert r b. induction n as [|n IH]; intros r b.
  - reflexivity.
  - destruct r as [|x r].
    + simpl. destruct b; destruct (_ <? _); reflexivity.
    + destruct b as [|b]; [reflexivity|].
      cbn [firstn skipn map app nth_error]. rewrite IH. reflexivity.
Qed.

Lemma norm_row_wide linesep n r :
  List.length r = n -> norm_row linesep n r = map (fun c => normalize linesep (fill0 c)) r.
Proof.
  intros <-. unfold norm_row. rewrite firstn_all, skipn_all. apply app_nil_r.
Qed.

Lemma passes_grid linesep h rows :
  apply_cols (normalize linesep) (range 0 (List.length h))
    (range 1 (S (List.length rows)))
    (apply_cols fill0 (range 0 (List.length h)) (range 0 (S (List.length rows)))
       (h :: rows))
  = final_grid linesep h rows.
Proof.
  apply grid_ext.
  - rewrite !apply_cols_length. unfold final_grid. simpl.
    rewrite length_map. reflexivity.
  - intros a b. unfold range.
    rewrite !apply_cols_cell by apply seq_NoDup.
    rewrite !mem_nat_seq. rewrite !Nat.sub_0_r. simpl Nat.sub. rewrite Nat.sub_0_r.
    unfold final_grid, cell.
    destruct a as [|a]; cbn [nth_error].
    + rewrite andb_false_r. simpl. rewrite nth_error_map.
      destruct (Nat.ltb_spec b (List.length h)) as [Hb|Hb]; simpl.
      * reflexivity.
      * assert (nth_error h b = None) as -> by (apply nth_error_None; lia).
        reflexivity.
    + rewrite nth_error_map.
      destruct (nth_error rows a) as [r|] eqn:Hr; simpl.
      * assert (a < List.length rows) as Ha by (apply nth_error_Some; congruence).
        unfold norm_row. rewrite nth_error_map_firstn.
        destruct (Nat.ltb_spec b (List.length h)) as [Hb|Hb]; simpl.
        -- assert ((S a <? S (List.length rows)) = true) as -> by (apply Nat.ltb_lt; lia).
           destruct (nth_error r b); reflexivity.
        -- reflexivity.
      * destruct ((b <? List.length h) && (S a <? S (List.length rows))); reflexivity.
Qed.

Lemma all_defined_wide h rows :
  forallb (fun j => forallb (fun i => defined (h :: rows) i j)
                      (range 0 (S (List.length rows))))
    (range 0 (List.length h))
  = wideb h rows.
Proof.
  apply eq_true_iff_eq. unfold wideb, range. rewrite !forallb_forall. split.
  - intros H r Hr. apply Nat.leb_le.
    destruct (List.length h) as [|k] eqn:Hk; [lia|].
    destruct (In_nth_error _ _ Hr) as [a Ha].
    assert (a < List.length rows) as Hlt by (apply nth_error_Some; congruence).
    specialize (H k). rewrite forallb_forall in H.
    assert (defined (h :: rows) (S a) k = true) as Hd.
    { apply H; apply in_seq; lia. }
    unfold defined, cell in Hd. simpl in Hd. rewrite Ha in Hd.
    destruct (nth_error r k) eqn:E; [|discriminate].
    assert (k < List.length r) by (apply nth_error_Some; congruence). lia.
  - intros H j Hj. apply in_seq in Hj. apply forallb_forall. intros i Hi.
    apply in_seq in Hi. unfold defined, cell.
    destruct i as [|i]; simpl.
    + destruct (nth_error h j) eqn:E; [reflexivity|].
      apply nth_error_None in E. lia.
    + destruct (nth_error rows i) as [r|] eqn:Hr.
      * apply nth_error_In in Hr. apply H in Hr. apply Nat.leb_le in Hr.
        destruct (nth_error r j) eqn:E; [reflexivity|].
        apply nth_error_None in E. lia.
      * apply nth_error_None in Hr. lia.
Qed.

(** The first pass visits every cell under the header, so it raises
    exactly when some row is shorter than the header. *)
Lemma fill_empty_cells_run h rows st :
  allData st = h :: rows ->
  match fill_empty_cells (List.length h) (S (List.length rows)) st with
  | Ok _ st' =>
      wideb h rows = true /\
      st' = set_allData
              (apply_cols fill0 (range 0 (List.length h))
                 (range 0 (S (List.length rows))) (h :: rows)) st
  | Raise e _ => wideb h rows = false /\ e = IndexError
  end.
Proof.
  intro Ht. rewrite fill_empty_cells_unfold.
  pose proof (loop_cols_run fill0 fill_body fill_body_run
                (range 0 (List.length h)) (range 0 (S (List.length rows))) st) as H.
  rewrite Ht, all_defined_wide in H. exact H.
Qed.

Lemma handle_quotes_run linesep h rows st :
  wideb h rows = true ->
  allData st =
    apply_cols fill0 (range 0 (List.length h)) (range 0 (S (List.length rows)))
      (h :: rows) ->
  handle_quotes linesep (List.length h) (S (List.length rows)) st
  = Ok tt (set_allData (final_grid linesep h rows) st).
Proof.
  intros Hw Ht. rewrite handle_quotes_unfold.
  pose proof (loop_cols_run (normalize linesep) (handle_body linesep)
                (handle_body_run linesep)
                (range 0 (List.length h)) (range 1 (S (List.length rows))) st) as H.
  rewrite Ht, passes_grid in H.
  destruct (for_each _ _ st) as [[] st'|e st'].
  - destruct H as [_ ->]. reflexivity.
  - exfalso. destruct H as [H _].
    apply not_true_iff_false in H. apply H. clear H.
    pose proof (all_defined_wide h rows) as Hall. rewrite Hw in Hall.
    rewrite forallb_forall in Hall.
    apply forallb_forall. intros j Hj. apply forallb_forall. intros i Hi.
    rewrite defined_apply_cols.
    specialize (Hall j Hj). rewrite forallb_forall in Hall. apply Hall.
    unfold range in *. apply in_seq in Hi. apply in_seq. lia.
Qed.

(** ** The passes that only read the grid *)

Lemma find_unique_unfold n m :
  find_unique n m = for_each (range 0 n) (unique_body m).
Proof. reflexivity. Qed.

Lemma assign_cell_types_unfold n m :
  assign_cell_types n m =
  for_each (range 1 m) (fun j => for_each (range 0 n) (tag_body j)).
Proof. reflexivity. Qed.

Lemma assign_column_types_unfold n m :
  assign_column_types n m = for_each (range 0 n) (column_type_body n m).
Proof. reflexivity. Qed.

Lemma assign_att_types_unfold :
  assign_att_types =
  (n <- gets (fun st => List.length (finalDataType st)) ;;
   for_each (range 0 n) att_body).
Proof. reflexivity. Qed.

(** Evaluate the assignments to local variables. *)
Ltac setters :=
  unfold modify, gets, ret, set_allData, set_dataType, set_columnsTemp,
    set_uniqueTemp, set_uniqueOfColumn, set_dataTypeTemp, set_finalDataType,
    set_attTypes, set_p, set_writeFile;
  cbn [allData dataType columnsTemp uniqueTemp uniqueOfColumn dataTypeTemp
       finalDataType attTypes p writeFile].

Section ReadingPasses.

(** The grid, which these passes leave as it is, and its extent. *)
Variable T : list (list str).
Variables n m : nat.
Hypothesis in_bounds : forall i j, i < m -> j < n -> cell T i j <> None.

Lemma get_item i j st :
  allData st = T -> i < m -> j < n -> get_cell i j st = Ok (item T i j) st.
Proof.
  intros Ht Hi Hj. rewrite get_cell_run, Ht. unfold item.
  destruct (cell T i j) eqn:E; [reflexivity|].
  exfalso. exact (in_bounds i j Hi Hj E).
Qed.

Lemma collect_run j rows D ct ut U dtt F A k w :
  j < n -> (forall i, In i rows -> i < m) ->
  for_each rows (collect_body j) (mkLocals T D ct ut U dtt F A k w)
  = Ok tt (mkLocals T D (ct ++ map (fun i => item T i j) rows) ut U dtt F A k w).
Proof.
  intros Hj. revert ct. induction rows as [|i rows IH]; intros ct Hin.
  - simpl. rewrite app_nil_r. reflexivity.
  - cbn [for_each map]. unfold bind at 1. unfold collect_body at 1, bind.
    rewrite (get_item i j) by (auto with datatypes).
    setters. rewrite IH by (auto with datatypes).
    rewrite <- app_assoc. reflexivity.
Qed.

Lemma find_unique_run cols D ut U dtt F A k w :
  (forall j, In j cols -> j < n) ->
  exists ut',
    for_each cols (unique_body m) (mkLocals T D [] ut U dtt F A k w)
    = Ok tt (mkLocals T D [] ut' (U ++ map (fun j => brace (column T m j)) cols)
               dtt F A k w).
Proof.
  revert ut U. induction cols as [|j cols IH]; intros ut U Hin.
  - exists ut. simpl. rewrite app_nil_r. reflexivity.
  - destruct (IH (Py.list_of_dict (Py.dict_fromkeys (column T m j)))
                 (U ++ [brace (column T m j)])) as [ut' E].
    { auto with datatypes. }
    exists ut'. cbn [for_each map]. unfold bind at 1.
    unfold unique_body at 1, bind.
    rewrite collect_run.
    + setters. fold (column T m j). cbn [app]. fold (brace (column T m j)).
      rewrite E. rewrite <- app_assoc. reflexivity.
    + auto with datatypes.
    + intros i Hi. unfold range in Hi. apply in_seq in Hi. lia.
Qed.

Lemma tag_run i cols D ct ut U dtt F A k w :
  i < m -> (forall j, In j cols -> j < n) ->
  for_each cols (tag_body i) (mkLocals T D ct ut U dtt F A k w)
  = Ok tt (mkLocals T (D ++ map (fun j => tag (item T i j)) cols)
             ct ut U dtt F A k w).
Proof.
  intros Hi. revert D. induction cols as [|j cols IH]; intros D Hin.
  - simpl. rewrite app_nil_r. reflexivity.
  - cbn [for_each map]. unfold bind at 1. unfold tag_body at 1, bind.
    rewrite (get_item i j) by (auto with datatypes).
    assert (forall x, (if Py.is_float (item T i j)
               then modify (fun st => set_dataType (dataType st ++ ["numeric"]) st)
               else modify (fun st => set_dataType (dataType st ++ ["nominal"]) st)) x
            = modify (fun st => set_dataType (dataType st ++ [tag (item T i j)]) st) x)
      as ->.
    { intro x. unfold tag. destruct (Py.is_float _); reflexivity. }
    setters. rewrite IH by (auto with datatypes).
    rewrite <- app_assoc. reflexivity.
Qed.

Lemma assign_cell_types_run rows D ct ut U dtt F A k w :
  (forall i, In i rows -> i < m) ->
  for_each rows (fun j => for_each (range 0 n) (tag_body j))
    (mkLocals T D ct ut U dtt F A k w)
  = Ok tt (mkLocals T
             (D ++ flat_map (fun i => map (fun j => tag (item T i j)) (range 0 n)) rows)
             ct ut U dtt F A k w).
Proof.
  revert D. induction rows as [|i rows IH]; intros D Hin.
  - simpl. rewrite app_nil_r. reflexivity.
  - cbn [for_each flat_map]. unfold bind at 1.
    rewrite tag_run.
    + rewrite IH by (auto with datatypes). rewrite <- app_assoc. reflexivity.
    + auto with datatypes.
    + intros j Hj. unfold range in Hj. apply in_seq in Hj. lia.
Qed.

End ReadingPasses.

(** ** The flat list of cell types and its strided reading *)

Lemma nth_error_blocks {A} (g : nat -> nat -> A) n a k i j :
  i < k -> j < n ->
  nth_error (flat_map (fun r => map (g r) (seq 0 n)) (seq a k)) (j + i * n)
  = Some (g (a + i) j).
Proof.
  revert a i. induction k as [|k IH]; intros a i Hi Hj; [lia|].
  cbn [seq flat_map]. destruct i as [|i].
  - rewrite nth_error_app1 by (rewrite length_map, length_seq; lia).
    rewrite nth_error_map, nth_error_seq.
    replace (j + 0 * n) with j by lia.
    assert ((j <? n) = true) as -> by (apply Nat.ltb_lt; lia).
    simpl. rewrite Nat.add_0_r. reflexivity.
  - rewrite nth_error_app2 by (rewrite length_map, length_seq; simpl; lia).
    rewrite length_map, length_seq.
    replace (j + S i * n - n) with (j + i * n) by (simpl; lia).
    rewrite IH by lia. f_equal. f_equal. lia.
Qed.

Section ColumnTypes.

Variable g : nat -> nat -> str.
Variables n m : nat.

Local Abbreviation D := (flat_types g n m).

Lemma stride_run T j steps i0 k0 ct ut U dtt F A w :
  k0 = j + i0 * n -> i0 + steps <= m - 1 -> j < n ->
  for_each (seq i0 steps) (stride_body n)
    (mkLocals T D ct ut U dtt F A k0 w)
  = Ok tt (mkLocals T D ct ut U (dtt ++ map (fun i => g (S i) j) (seq i0 steps))
             F A (j + (i0 + steps) * n) w).
Proof.
  revert i0 k0 dtt. induction steps as [|steps IH]; intros i0 k0 dtt -> Hle Hj.
  - simpl. rewrite app_nil_r, Nat.add_0_r. reflexivity.
  - cbn [seq for_each map]. unfold bind at 1. unfold stride_body at 1, bind.
    setters. unfold getitem.
    assert (nth_error D (j + i0 * n) = Some (g (S i0) j)) as ->.
    { unfold flat_types, range. rewrite Nat.sub_0_r.
      rewrite (nth_error_blocks g n 1 (m - 1) i0 j) by lia. reflexivity. }
    setters.
    rewrite (IH (S i0)) by (simpl; lia). rewrite <- app_assoc.
    replace (S i0 + steps) with (i0 + S steps) by lia. reflexivity.
Qed.

Lemma column_types_run T cols ct ut U F A k w :
  (forall j, In j cols -> j < n) ->
  exists k',
    for_each cols (column_type_body n m) (mkLocals T D ct ut U [] F A k w)
    = Ok tt (mkLocals T D ct ut U [] (F ++ map (ctype g m) cols) A k' w).
Proof.
  revert F k. induction cols as [|j cols IH]; intros F k Hin.
  - exists k. simpl. rewrite app_nil_r. reflexivity.
  - destruct (IH (F ++ [ctype g m j]) (j + (0 + (m - 1)) * n)) as [k' E].
    { auto with datatypes. }
    exists k'. cbn [for_each map]. unfold bind at 1.
    unfold column_type_body at 1, bind. setters.
    unfold range at 1. rewrite Nat.sub_0_r.
    rewrite (stride_run T j (m - 1) 0) by (auto with datatypes; lia).
    cbn [app]. setters.
    assert (ctype g m j =
            if list_contains "nominal" (map (fun i => g (S i) j) (seq 0 (m - 1)))
            then "nominal" else "numeric") as Hc.
    { unfold ctype, range. rewrite Nat.sub_0_r. reflexivity. }
    destruct (list_contains _ _); setters; rewrite Hc in *;
      rewrite E, <- app_assoc; reflexivity.
Qed.

End ColumnTypes.

Lemma att_run T D ct ut U dtt F k w l A :
  (forall i, In i l -> i < List.length F) ->
  List.length F <= List.length U ->
  for_each l att_body (mkLocals T D ct ut U dtt F A k w)
  = Ok tt (mkLocals T D ct ut U dtt F (A ++ map (att_type F U) l) k w).
Proof.
  intros Hin HU. revert A. induction l as [|i l IH]; intro A.
  - simpl. rewrite app_nil_r. reflexivity.
  - cbn [for_each map]. unfold bind at 1. unfold att_body at 1, bind.
    setters. unfold getitem.
    assert (i < List.length F) as Hi by (auto with datatypes).
    specialize (IH (fun x Hx => Hin x (or_intror Hx))).
    rewrite (nth_error_nth' F "" Hi). setters.
    unfold att_type at 1.
    destruct (String.eqb (nth i F "") "nominal").
    + rewrite (nth_error_nth' U "") by lia. setters.
      rewrite IH, <- app_assoc. reflexivity.
    + setters. rewrite (nth_error_nth' F "" Hi). setters.
      rewrite IH, <- app_assoc. reflexivity.
Qed.

(** ** Lines 67-120 as a whole *)

Lemma final_grid_in_bounds linesep h rows :
  wideb h rows = true ->
  forall i j, i < S (List.length rows) -> j < List.length h ->
    cell (final_grid linesep h rows) i j <> None.
Proof.
  intros Hw i j Hi Hj.
  pose proof (all_defined_wide h rows) as Hall. rewrite Hw in Hall.
  rewrite forallb_forall in Hall.
  assert (In j (range 0 (List.length h))) as Hj'.
  { unfold range. apply in_seq. lia. }
  specialize (Hall j Hj'). rewrite forallb_forall in Hall.
  assert (In i (range 0 (S (List.length rows)))) as Hi'.
  { unfold range. apply in_seq. lia. }
  specialize (Hall i Hi').
  rewrite <- passes_grid.
  rewrite <- (defined_apply_cols fill0 (range 0 (List.length h))
                (range 0 (S (List.length rows)))) in Hall.
  rewrite <- (defined_apply_cols (normalize linesep) (range 0 (List.length h))
                (range 1 (S (List.length rows)))) in Hall.
  unfold defined in Hall. intro E. rewrite E in Hall. discriminate.
Qed.

Lemma in_range_lt a b i : In i (range a b) -> i < b.
Proof. unfold range. intro H. apply in_seq in H. lia. Qed.

Lemma process_cons linesep h rows :
  process linesep (init_locals (h :: rows)) =
  (let n := List.length h in
   let m := S (List.length rows) in
   fill_empty_cells n m ;;
   handle_quotes linesep n m ;;
   find_unique n m ;;
   assign_cell_types n m ;;
   assign_column_types n m ;;
   assign_att_types ;;
   ret (n, m)) (init_locals (h :: rows)).
Proof. reflexivity. Qed.

Lemma process_run linesep h rows :
  wideb h rows = true ->
  let n := List.length h in
  let m := S (List.length rows) in
  let T := final_grid linesep h rows in
  exists ut k,
    process linesep (init_locals (h :: rows))
    = Ok (n, m)
        (mkLocals T (cell_types T n m) [] ut (unique_texts T n m) []
           (column_types T n m) (att_texts T n m) k None).
Proof.
  intros Hw n m T.
  pose proof (final_grid_in_bounds linesep h rows Hw) as Hb. fold T in Hb.
  rewrite process_cons. cbv zeta. unfold bind.
  pose proof (fill_empty_cells_run h rows (init_locals (h :: rows)) eq_refl) as H1.
  destruct (fill_empty_cells _ _ (init_locals (h :: rows))) as [[] st1|e st1].
  2:{ destruct H1 as [H1 _]. congruence. }
  destruct H1 as [_ ->].
  rewrite (handle_quotes_run linesep h rows) by (assumption || reflexivity).
  fold T. unfold init_locals. setters. fold n m in Hb |- *.
  rewrite find_unique_unfold.
  destruct (find_unique_run T n m Hb (range 0 n) [] [] [] [] [] [] 0 None)
    as [ut E1].
  { intros j Hj. eapply in_range_lt; eassumption. }
  rewrite E1. cbn [app]. fold (unique_texts T n m).
  rewrite assign_cell_types_unfold.
  rewrite (assign_cell_types_run T n m Hb).
  2:{ intros i Hi. eapply in_range_lt; eassumption. }
  cbn [app]. fold (cell_types T n m).
  rewrite assign_column_types_unfold.
  destruct (column_types_run (fun i j => tag (item T i j)) n m T (range 0 n)
              [] ut (unique_texts T n m) [] [] 0 None) as [k E2].
  { intros j Hj. eapply in_range_lt; eassumption. }
  change (cell_types T n m) with (flat_types (fun i j => tag (item T i j)) n m).
  rewrite E2. cbn [app].
  change (map (ctype (fun i j => tag (item T i j)) m) (range 0 n))
    with (column_types T n m).
  rewrite assign_att_types_unfold. unfold bind. setters.
  assert (List.length (column_types T n m) = n) as Hlen.
  { unfold column_types, range. rewrite length_map, length_seq. lia. }
  rewrite Hlen.
  rewrite att_run.
  - exists ut, k. reflexivity.
  - intros i Hi. rewrite Hlen. eapply in_range_lt; eassumption.
  - rewrite Hlen. unfold unique_texts, range. rewrite length_map, length_seq. lia.
Qed.

Lemma process_raise linesep h rows :
  wideb h rows = false ->
  exists st, process linesep (init_locals (h :: rows)) = Raise IndexError st.
Proof.
  intro Hw. rewrite process_cons. cbv zeta. unfold bind.
  pose proof (fill_empty_cells_run h rows (init_locals (h :: rows)) eq_refl) as H1.
  destruct (fill_empty_cells _ _ (init_locals (h :: rows))) as [[] st1|e st1].
  - destruct H1 as [H1 _]. congruence.
  - destruct H1 as [_ ->]. exists st1. reflexivity.
Qed.

Lemma process_empty linesep :
  process linesep (init_locals []) = Raise IndexError (init_locals []).
Proof. reflexivity. Qed.

(** ** Writing, when the destination does not fail *)

Lemma write_arff_unfold fault relation n m :
  write_arff fault relation n m =
  (open_w fault ;;
   write fault comment_head ;;
   write fault (comment_relation relation) ;;
   write fault (comment_counts n m) ;;
   write fault (relation_line relation) ;;
   for_each (range 0 n) (attr_body fault) ;;
   write fault data_marker ;;
   for_each (range 1 m) (data_body fault) ;;
   close_w fault).
Proof. reflexivity. Qed.

Lemma write_run chunk T D ct ut U dtt F A k chunks :
  write NoFault chunk (mkLocals T D ct ut U dtt F A k (Some chunks))
  = Ok tt (mkLocals T D ct ut U dtt F A k (Some (chunks ++ [chunk]))).
Proof. reflexivity. Qed.

Lemma attr_run T D ct ut U dtt F A k l chunks :
  (forall i, In i l -> cell T 0 i <> None /\ i < List.length A) ->
  for_each l (attr_body NoFault) (mkLocals T D ct ut U dtt F A k (Some chunks))
  = Ok tt (mkLocals T D ct ut U dtt F A k
             (Some (chunks ++ map (fun i => attribute_line (item T 0 i) (nth i A "")) l))).
Proof.
  revert chunks. induction l as [|i l IH]; intros chunks Hin.
  - simpl. rewrite app_nil_r. reflexivity.
  - cbn [for_each map]. unfold bind at 1. unfold attr_body at 1, bind.
    unfold get_attribute. rewrite get_cell_run. setters.
    destruct (Hin i (or_introl eq_refl)) as [Hc Hi].
    unfold item. destruct (cell T 0 i) as [a|]; [|contradiction].
    setters. unfold getitem. rewrite (nth_error_nth' A "" Hi). setters.
    rewrite write_run. rewrite IH by (auto with datatypes).
    rewrite <- app_assoc. reflexivity.
Qed.

Lemma data_run T D ct ut U dtt F A k l chunks :
  (forall i, In i l -> i < List.length T) ->
  for_each l (data_body NoFault) (mkLocals T D ct ut U dtt F A k (Some chunks))
  = Ok tt (mkLocals T D ct ut U dtt F A k
             (Some (chunks ++ map (fun i => data_line (nth i T [])) l))).
Proof.
  revert chunks. induction l as [|i l IH]; intros chunks Hin.
  - simpl. rewrite app_nil_r. reflexivity.
  - cbn [for_each map]. unfold bind at 1. unfold data_body at 1, bind.
    setters. unfold getitem.
    rewrite (nth_error_nth' T []) by (auto with datatypes). setters.
    rewrite write_run. rewrite IH by (auto with datatypes).
    rewrite <- app_assoc. reflexivity.
Qed.

Lemma map_nth_combine {A B C} (f : A -> B -> C) (l1 : list A) (l2 : list B) d1 d2 :
  List.length l1 = List.length l2 ->
  map (fun i => f (nth i l1 d1) (nth i l2 d2)) (seq 0 (List.length l1))
  = map (fun ab => f (fst ab) (snd ab)) (combine l1 l2).
Proof.
  revert l2. induction l1 as [|x l1 IH]; intros [|y l2] H; simpl in H;
    try discriminate; [reflexivity|].
  cbn [List.length seq map combine fst snd nth]. f_equal.
  rewrite <- seq_shift, map_map. cbn [nth]. apply IH. lia.
Qed.

Lemma map_nth_tail {A B} (g : A -> B) (x : A) (l : list A) d :
  map (fun i => g (nth i (x :: l) d)) (seq 1 (List.length l)) = map g l.
Proof.
  rewrite <- seq_shift, map_map. cbn [nth].
  induction l as [|y l IH]; [reflexivity|].
  cbn [List.length seq map nth]. f_equal.
  rewrite <- seq_shift, map_map. cbn [nth]. exact IH.
Qed.

Lemma write_arff_run relation linesep h rows D ut U F A k :
  wideb h rows = true ->
  List.length A = List.length h ->
  write_arff NoFault relation (List.length h) (S (List.length rows))
    (mkLocals (final_grid linesep h rows) D [] ut U [] F A k None)
  = Ok tt (mkLocals (final_grid linesep h rows) D [] ut U [] F A k
             (Some (arff_chunks relation (map fill0 h) A
                      (map (norm_row linesep (List.length h)) rows)))).
Proof.
  intros Hw HA. rewrite write_arff_unfold. unfold bind.
  unfold open_w. setters. rewrite !write_run. cbn [app].
  rewrite attr_run.
  2:{ intros i Hi. apply in_range_lt in Hi. split; [|lia].
      apply (final_grid_in_bounds linesep h rows Hw); lia. }
  rewrite write_run.
  rewrite data_run.
  2:{ intros i Hi. apply in_range_lt in Hi. unfold final_grid. simpl.
      rewrite length_map. exact Hi. }
  unfold close_w. setters.
  do 2 f_equal. f_equal. unfold arff_chunks.
  rewrite !length_map. cbn [app]. do 4 f_equal.
  rewrite <- !app_assoc. f_equal.
  - unfold range. rewrite Nat.sub_0_r.
    rewrite <- (map_nth_combine attribute_line (map fill0 h) A "" "")
      by (rewrite length_map; lia).
    rewrite length_map. apply map_ext_in. intros i Hi. apply in_seq in Hi.
    f_equal. unfold item, final_grid, cell. cbn [nth_error].
    rewrite (nth_error_nth' (map fill0 h) "") by (rewrite length_map; lia).
    reflexivity.
  - cbn [app]. f_equal. unfold range, final_grid.
    replace (S (List.length rows) - 1) with
      (List.length (map (norm_row linesep (List.length h)) rows))
      by (rewrite length_map; lia).
    apply map_nth_tail.
Qed.

(** ** The call on a grid with no short row and a destination that works *)

Lemma csv_to_arff_ok w fileToRead fileToWrite relation h rows :
  open_read w fileToRead = ReadOk (h :: rows) ->
  wideb h rows = true ->
  open_write w fileToWrite = NoFault ->
  let n := List.length h in
  let T := final_grid (os_linesep w) h rows in
  csv_to_arff w fileToRead fileToWrite relation =
  mkRun Returned
    ["'" +++ fileToWrite +++ "' was converted from '" +++ fileToRead +++ "'"]
    (Some (arff_chunks relation (map fill0 h) (att_texts T n (S (List.length rows)))
             (map (norm_row (os_linesep w) n) rows))).
Proof.
  intros Hr Hw Hf n T. unfold csv_to_arff. rewrite Hr, Hf.
  destruct (process_run (os_linesep w) h rows Hw) as (ut & k & E).
  rewrite E. fold n T.
  unfold n, T. rewrite write_arff_run.
  - reflexivity.
  - assumption.
  - unfold att_texts, range. rewrite length_map, length_seq. lia.
Qed.

(** ** [dict.fromkeys]: distinct keys in the order of first occurrence *)

Lemma dict_has_In d k : Py.dict_has d k = true <-> In k (Py.list_of_dict d).
Proof.
  induction d as [|[k' v] d IH]; simpl.
  - split; [discriminate|contradiction].
  - rewrite orb_true_iff, IH, String.eqb_eq. reflexivity.
Qed.

Lemma keys_setitem d k :
  Py.list_of_dict (Py.dict_setitem d k tt) =
  if Py.dict_has d k then Py.list_of_dict d else Py.list_of_dict d ++ [k].
Proof.
  unfold Py.dict_setitem, Py.list_of_dict.
  destruct (Py.dict_has d k).
  - rewrite map_map. apply map_ext. intros [k' v]. simpl.
    destruct (String.eqb k' k); reflexivity.
  - rewrite map_app. reflexivity.
Qed.

Lemma uniq_snoc l k :
  uniq (l ++ [k]) =
  if Py.dict_has (Py.dict_fromkeys l) k then uniq l else uniq l ++ [k].
Proof.
  unfold uniq, Py.dict_fromkeys. rewrite fold_left_app. simpl.
  apply keys_setitem.
Qed.

Lemma uniq_In l x : In x (uniq l) <-> In x l.
Proof.
  induction l as [|k l IH] using rev_ind; [reflexivity|].
  rewrite uniq_snoc, in_app_iff.
  destruct (Py.dict_has (Py.dict_fromkeys l) k) eqn:E.
  - apply dict_has_In in E. fold (uniq l) in E. rewrite IH. simpl.
    split; [tauto|]. intros [H|[<-|[]]]; [assumption|]. apply IH. assumption.
  - rewrite in_app_iff, IH. reflexivity.
Qed.

Lemma uniq_NoDup l : NoDup (uniq l).
Proof.
  induction l as [|k l IH] using rev_ind; [constructor|].
  rewrite uniq_snoc.
  destruct (Py.dict_has (Py.dict_fromkeys l) k) eqn:E; [assumption|].
  apply NoDup_app; [assumption|repeat constructor; intros []|].
  intros x Hx [<-|[]].
  apply (dict_has_In (Py.dict_fromkeys l) k) in Hx. congruence.
Qed.

Lemma index_app_Some x l l' i : index x l = Some i -> index x (l ++ l') = Some i.
Proof.
  revert i. induction l as [|y l IH]; intros i H; simpl in *; [discriminate|].
  destruct (String.eqb y x); [assumption|].
  destruct (index x l) as [i'|]; [|discriminate].
  rewrite (IH i' eq_refl). assumption.
Qed.

Lemma index_In x l : In x l -> exists i, index x l = Some i /\ i < List.length l.
Proof.
  induction l as [|y l IH]; intro H; [contradiction|]. simpl.
  destruct (String.eqb_spec y x) as [->|Hne].
  - exists 0. split; [reflexivity|lia].
  - destruct H as [H|H]; [contradiction|].
    destruct (IH H) as (i & -> & Hi). exists (S i). split; [reflexivity|lia].
Qed.

Lemma index_fresh x l : ~ In x l -> index x (l ++ [x]) = Some (List.length l).
Proof.
  induction l as [|y l IH]; intro H; simpl.
  - rewrite String.eqb_refl. reflexivity.
  - destruct (String.eqb_spec y x) as [->|Hne].
    + exfalso. apply H. left. reflexivity.
    + rewrite IH; [reflexivity|]. intro Hin. apply H. right. assumption.
Qed.

Lemma uniq_order l a b x y :
  a < b ->
  nth_error (uniq l) a = Some x ->
  nth_error (uniq l) b = Some y ->
  exists ia ib, index x l = Some ia /\ index y l = Some ib /\ ia < ib.
Proof.
  revert a b x y. induction l as [|k l IH] using rev_ind; intros a b x y Hab Ha Hb.
  - destruct a; discriminate.
  - rewrite uniq_snoc in Ha, Hb.
    destruct (Py.dict_has (Py.dict_fromkeys l) k) eqn:E.
    + destruct (IH a b x y Hab Ha Hb) as (ia & ib & Hx & Hy & Hlt).
      exists ia, ib. repeat split; try assumption; apply index_app_Some; assumption.
    + assert (~ In k l) as Hk.
      { intro Hin. apply (proj2 (uniq_In l k)) in Hin.
        apply (dict_has_In (Py.dict_fromkeys l) k) in Hin. congruence. }
      assert (b < List.length (uniq l ++ [k])) as Hblen
        by (apply nth_error_Some; congruence).
      rewrite length_app in Hblen. simpl in Hblen.
      rewrite nth_error_app1 in Ha by lia.
      destruct (Nat.lt_ge_cases b (List.length (uniq l))) as [Hb'|Hb'].
      * rewrite nth_error_app1 in Hb by assumption.
        destruct (IH a b x y Hab Ha Hb) as (ia & ib & Hx & Hy & Hlt).
        exists ia, ib. repeat split; try assumption; apply index_app_Some; assumption.
      * rewrite nth_error_app2 in Hb by assumption.
        replace (b - List.length (uniq l)) with 0 in Hb by lia.
        simpl in Hb. injection Hb as <-.
        apply nth_error_In in Ha. apply (proj1 (uniq_In l x)) in Ha.
        destruct (index_In x l Ha) as (ia & Hx & Hia).
        exists ia, (List.length l). repeat split.
        -- apply index_app_Some. assumption.
        -- apply index_fresh. assumption.
        -- assumption.
Qed.

(** ** The final state, field by field *)

Lemma nth_error_map_range {A} (g : nat -> A) n j :
  j < n -> nth_error (map g (range 0 n)) j = Some (g j).
Proof.
  intro Hj. unfold range. rewrite Nat.sub_0_r, nth_error_map, nth_error_seq.
  assert ((j <? n) = true) as -> by (apply Nat.ltb_lt; assumption).
  reflexivity.
Qed.

Lemma nth_map_range {A} (g : nat -> A) n j d :
  j < n -> nth j (map g (range 0 n)) d = g j.
Proof.
  intro Hj. apply nth_error_nth. apply nth_error_map_range. assumption.
Qed.

Lemma final_cell_data linesep h rows i j :
  j < List.length h ->
  cell (final_grid linesep h rows) (S i) j =
  option_map (fun c => normalize linesep (fill0 c)) (cell (h :: rows) (S i) j).
Proof.
  intro Hj. unfold final_grid, cell. cbn [nth_error]. rewrite nth_error_map.
  destruct (nth_error rows i) as [r|]; [|reflexivity]. simpl.
  unfold norm_row. rewrite nth_error_map_firstn.
  assert ((j <? List.length h) = true) as -> by (apply Nat.ltb_lt; assumption).
  reflexivity.
Qed.

Lemma final_cell_header linesep h rows j :
  cell (final_grid linesep h rows) 0 j = option_map fill0 (cell (h :: rows) 0 j).
Proof. unfold final_grid, cell. cbn [nth_error]. apply nth_error_map. Qed.

Lemma list_contains_nominal (g : nat -> str) l :
  list_contains "nominal" (map (fun i => tag (g i)) l) = true <->
  exists i, In i l /\ Py.is_float (g i) = false.
Proof.
  unfold list_contains. rewrite existsb_exists. split.
  - intros (x & Hx & E). apply in_map_iff in Hx. destruct Hx as (i & <- & Hi).
    exists i. split; [assumption|]. unfold tag in E.
    destruct (Py.is_float (g i)); [discriminate|reflexivity].
  - intros (i & Hi & E). exists (tag (g i)). split.
    + apply in_map_iff. exists i. split; [reflexivity|assumption].
    + unfold tag. rewrite E. reflexivity.
Qed.

Lemma column_type_nominal T m j :
  column_type T m j = "nominal" <->
  exists i, 1 <= i /\ i < m /\ Py.is_float (item T i j) = false.
Proof.
  unfold column_type.
  pose proof (list_contains_nominal (fun i => item T (S i) j) (range 0 (m - 1))) as H.
  destruct (list_contains _ _).
  - split; [intros _|reflexivity].
    destruct (proj1 H eq_refl) as (i & Hi & E). apply in_range_lt in Hi.
    exists (S i). repeat split; try lia. assumption.
  - split; [discriminate|]. intros (i & H1 & Hm & E). exfalso.
    destruct i as [|i]; [lia|].
    assert (false = true); [|discriminate]. apply H. exists i. split; [|assumption].
    unfold range. apply in_seq. lia.
Qed.

Lemma column_type_numeric T m j :
  column_type T m j = "numeric" <->
  forall i, 1 <= i -> i < m -> Py.is_float (item T i j) = true.
Proof.
  split.
  - intros H i H1 Hm. destruct (Py.is_float (item T i j)) eqn:E; [reflexivity|].
    assert (column_type T m j = "nominal") as Hn.
    { apply column_type_nominal. exists i. auto. }
    rewrite H in Hn. discriminate.
  - intro H. unfold column_type.
    destruct (list_contains _ _) eqn:E; [|reflexivity].
    apply (list_contains_nominal (fun i => item T (S i) j)) in E.
    destruct E as (i & Hi & E). apply in_range_lt in Hi.
    rewrite H in E by lia. discriminate.
Qed.

Lemma brace_not_numeric l : brace l <> "numeric".
Proof. unfold brace. simpl. discriminate. Qed.

Lemma att_texts_nth T n m j :
  j < n ->
  nth_error (att_texts T n m) j =
  Some (if String.eqb (column_type T m j) "nominal"
        then brace (column T m j) else column_type T m j).
Proof.
  intro Hj. unfold att_texts. rewrite nth_error_map_range by assumption.
  unfold att_type, column_types, unique_texts.
  rewrite !nth_map_range by assumption. reflexivity.
Qed.

Lemma item_nth T i j :
  cell T i j <> None -> item T i j = nth j (nth i T []) "".
Proof.
  unfold item, cell. intro H.
  destruct (nth_error T i) as [r|] eqn:Hr; [|contradiction].
  rewrite (nth_error_nth _ _ [] Hr).
  destruct (nth_error r j) as [c|] eqn:Hc; [|contradiction].
  symmetry. apply nth_error_nth. assumption.
Qed.

Lemma column_tail linesep h rows j :
  wideb h rows = true -> j < List.length h ->
  column (final_grid linesep h rows) (S (List.length rows)) j
  = map (fun r => nth j r "") (tl (final_grid linesep h rows)).
Proof.
  intros Hw Hj. unfold column.
  rewrite (map_ext_in _ (fun i => nth j (nth i (final_grid linesep h rows) []) "")).
  - unfold final_grid, range. cbn [tl].
    replace (S (List.length rows) - 1) with
      (List.length (map (norm_row linesep (List.length h)) rows))
      by (rewrite length_map; lia).
    apply (map_nth_tail (fun r => nth j r "")).
  - intros i Hi. unfold range in Hi. apply in_seq in Hi.
    apply item_nth. apply (final_grid_in_bounds linesep h rows Hw); lia.
Qed.

(** * The claims *)

Lemma column_parses_iff linesep h rows j :
  wideb h rows = true -> j < List.length h ->
  forall D ct ut U dtt F A k wf,
  column_parses
    (mkLocals (final_grid linesep h rows) D ct ut U dtt F A k wf) j <->
  column_type (final_grid linesep h rows) (S (List.length rows)) j = "numeric".
Proof.
  intros Hw Hj D ct ut U dtt F A k wf.
  rewrite column_type_numeric. unfold column_parses. cbn [allData].
  pose proof (final_grid_in_bounds linesep h rows Hw) as Hb.
  split.
  - intros H i H1 Hm. specialize (Hb i j Hm Hj). unfold item.
    destruct (cell _ i j) as [c|] eqn:E; [|contradiction].
    apply (H i c H1 E).
  - intros H i c H1 Hc.
    assert (i < S (List.length rows)) as Hm.
    { unfold cell in Hc.
      destruct (nth_error (final_grid linesep h rows) i) eqn:E; [|discriminate].
      assert (i < List.length (final_grid linesep h rows))
        by (apply nth_error_Some; congruence).
      unfold final_grid in *. simpl in *. rewrite length_map in *. lia. }
    specialize (H i H1 Hm). unfold item in H. rewrite Hc in H. exact H.
Qed.

Lemma column_fails_iff linesep h rows j :
  wideb h rows = true -> j < List.length h ->
  forall D ct ut U dtt F A k wf,
  column_fails
    (mkLocals (final_grid linesep h rows) D ct ut U dtt F A k wf) j ->
  column_type (final_grid linesep h rows) (S (List.length rows)) j = "nominal".
Proof.
  intros Hw Hj D ct ut U dtt F A k wf (i & c & H1 & Hc & Hf).
  cbn [allData] in Hc. apply column_type_nominal.
  exists i. split; [assumption|]. split.
  - unfold cell in Hc.
    destruct (nth_error (final_grid linesep h rows) i) eqn:E; [|discriminate].
    assert (i < List.length (final_grid linesep h rows))
      by (apply nth_error_Some; congruence).
    unfold final_grid in *. simpl in *. rewrite length_map in *. lia.
  - unfold item. rewrite Hc. assumption.
Qed.

(** C1.  For a grid whose rows are all at least as long as the header
    (the conversion raises on any other grid), lines 67-120 run to their
    end and, for every column [j]: the text emitted as the column's
    type is [numeric] if and only if every data-row cell of the column,
    in its normalized form, parses as a floating-point number; the
    inferred type is then [numeric]; and if some cell fails to parse,
    the inferred type is [nominal] and the emitted text is the
    column's brace list, not [numeric]. *)
Theorem C1_column_type_inference (linesep : str) (h : list str)
    (rows : list (list str)) (j : nat) :
  wideb h rows = true ->
  j < List.length h ->
  exists st,
    process linesep (init_locals (h :: rows))
      = Ok (List.length h, S (List.length rows)) st /\
    (nth_error (attTypes st) j = Some "numeric" <-> column_parses st j) /\
    (column_parses st j -> nth_error (finalDataType st) j = Some "numeric") /\
    (column_fails st j ->
       nth_error (finalDataType st) j = Some "nominal" /\
       nth_error (attTypes st) j = nth_error (uniqueOfColumn st) j /\
       nth_error (attTypes st) j <> Some "numeric").
Proof.
  intros Hw Hj.
  destruct (process_run linesep h rows Hw) as (ut & k & E).
  eexists. split; [exact E|].
  set (T := final_grid linesep h rows) in *.
  set (m := S (List.length rows)) in *.
  set (n := List.length h) in *.
  cbn [attTypes finalDataType uniqueOfColumn].
  rewrite (att_texts_nth T n m j Hj).
  unfold column_types, unique_texts. rewrite !nth_error_map_range by assumption.
  split; [|split].
  - unfold T, m. rewrite column_parses_iff by assumption. fold T m.
    destruct (String.eqb_spec (column_type T m j) "nominal") as [En|En].
    + split.
      * intro H. exfalso. apply (brace_not_numeric (column T m j)). congruence.
      * intro H. rewrite H in En. discriminate.
    + split; [intro H; congruence|intros ->; reflexivity].
  - unfold T, m. rewrite column_parses_iff by assumption. intros ->. reflexivity.
  - intro Hfail. apply (column_fails_iff linesep h rows j Hw Hj) in Hfail.
    fold T m in Hfail. rewrite Hfail. simpl String.eqb. cbv iota.
    split; [reflexivity|]. split; [reflexivity|].
    intro H. apply (brace_not_numeric (column T m j)). congruence.
Qed.

Lemma C1_column_type_inference_witness :
  exists st,
    process nl (init_locals example_rows) = Ok (3, 3) st /\
    (nth_error (attTypes st) 1 = Some "numeric" <-> column_parses st 1) /\
    (column_parses st 1 -> nth_error (finalDataType st) 1 = Some "numeric") /\
    (column_fails st 1 ->
       nth_error (finalDataType st) 1 = Some "nominal" /\
       nth_error (attTypes st) 1 = nth_error (uniqueOfColumn st) 1 /\
       nth_error (attTypes st) 1 <> Some "numeric").
Proof.
  apply (C1_column_type_inference nl ["name"; "age"; "score"]
           [["Alice"; "30"; "9.5"]; ["Bob"; ""; "8"]] 1).
  - reflexivity.
  - simpl. lia.
Defined.

(** C3, as stated, fails: a line feed inside a field is kept by the
    code, which strips only the two ends of the value. *)
Lemma C3_embedded_line_feed_kept :
  exists st,
    process nl (init_locals [["h"]; [a_lf_b]]) = Ok (1, 2) st /\
    cell (allData st) 1 0 = Some (chr DQUOTE +++ a_lf_b +++ chr DQUOTE) /\
    spec_normalized_cell nl a_lf_b = chr DQUOTE +++ "ab" +++ chr DQUOTE /\
    cell (allData st) 1 0 <> Some (spec_normalized_cell nl a_lf_b).
Proof.
  eexists. split; [vm_compute; reflexivity|].
  split; [reflexivity|]. split; [reflexivity|].
  vm_compute. discriminate.
Qed.

(** C3, amended.  For a grid with no row shorter than the header, every
    data-row cell under the header ends as follows: the value left by
    the empty-cell pass is lower-cased; the characters of the platform
    line separator, then line feeds, then carriage returns are
    stripped from its two ends, one after the other (characters inside
    the value stay); every single quote and every double quote is
    prefixed with a backslash; and the result is wrapped in double
    quotes if and only if it does not parse as a floating-point
    number. *)
Theorem C3_normalized_cell (linesep : str) (h : list str)
    (rows : list (list str)) (i j : nat) (raw : str) :
  wideb h rows = true ->
  j < List.length h ->
  1 <= i ->
  cell (h :: rows) i j = Some raw ->
  exists st,
    process linesep (init_locals (h :: rows))
      = Ok (List.length h, S (List.length rows)) st /\
    cell (allData st) i j =
    Some (let v :=
            Py.replace_char DQUOTE (String BACKSLASH (chr DQUOTE))
              (Py.replace_char SQUOTE (String BACKSLASH (chr SQUOTE))
                 (Py.strip (chr CR) (Py.strip (chr LF) (Py.strip linesep
                    (Py.lower (if Py.is_empty raw then "0" else raw)))))) in
          if Py.is_float v then v else chr DQUOTE +++ v +++ chr DQUOTE).
Proof.
  intros Hw Hj Hi Hraw.
  destruct (process_run linesep h rows Hw) as (ut & k & E).
  eexists. split; [exact E|]. cbn [allData].
  destruct i as [|i]; [lia|].
  rewrite final_cell_data by assumption. rewrite Hraw. reflexivity.
Qed.

Lemma C3_normalized_cell_witness :
  exists st,
    process nl (init_locals example_rows) = Ok (3, 3) st /\
    cell (allData st) 1 0 = Some (chr DQUOTE +++ "alice" +++ chr DQUOTE).
Proof.
  apply (C3_normalized_cell nl ["name"; "age"; "score"]
           [["Alice"; "30"; "9.5"]; ["Bob"; ""; "8"]] 1 0 "Alice").
  - reflexivity.
  - simpl. lia.
  - lia.
  - reflexivity.
Defined.

(** C4.  For a grid with no row shorter than the header and a column
    [j] whose inferred type is [nominal], the emitted domain is
    [{v1,...,vk}] where [v1 .. vk] are the normalized data-row cells of
    the column without duplicates, each value of the column among
    them, in the order of first occurrence in the column. *)
Theorem C4_nominal_domain (linesep : str) (h : list str)
    (rows : list (list str)) (j : nat) :
  wideb h rows = true ->
  j < List.length h ->
  exists st,
    process linesep (init_locals (h :: rows))
      = Ok (List.length h, S (List.length rows)) st /\
    (nth_error (finalDataType st) j = Some "nominal" ->
     let col := map (fun r => nth j r "") (tl (allData st)) in
     exists u,
       nth_error (attTypes st) j = Some ("{" +++ Py.join "," u +++ "}") /\
       NoDup u /\
       (forall x, In x u <-> In x col) /\
       (forall a b x y, a < b ->
          nth_error u a = Some x -> nth_error u b = Some y ->
          exists ia ib,
            index x col = Some ia /\ index y col = Some ib /\ ia < ib)).
Proof.
  intros Hw Hj.
  destruct (process_run linesep h rows Hw) as (ut & k & E).
  eexists. split; [exact E|].
  cbn [attTypes finalDataType allData].
  unfold column_types. rewrite nth_error_map_range by assumption.
  intro Hnom. cbv zeta. assert (column_type (final_grid linesep h rows)
            (S (List.length rows)) j = "nominal") as Hn by congruence.
  rewrite att_texts_nth by assumption. rewrite Hn. simpl String.eqb. cbv iota.
  rewrite column_tail by assumption.
  set (col := map (fun r => nth j r "") (tl (final_grid linesep h rows))).
  exists (uniq col). split; [reflexivity|]. split; [apply uniq_NoDup|].
  split; [apply uniq_In|]. apply uniq_order.
Qed.

Lemma C4_nominal_domain_witness :
  exists st,
    process nl (init_locals example_rows) = Ok (3, 3) st /\
    (nth_error (finalDataType st) 0 = Some "nominal" ->
     let col := map (fun r => nth 0 r "") (tl (allData st)) in
     exists u,
       nth_error (attTypes st) 0 = Some ("{" +++ Py.join "," u +++ "}") /\
       NoDup u /\
       (forall x, In x u <-> In x col) /\
       (forall a b x y, a < b ->
          nth_error u a = Some x -> nth_error u b = Some y ->
          exists ia ib,
            index x col = Some ia /\ index y col = Some ib /\ ia < ib)).
Proof.
  apply (C4_nominal_domain nl ["name"; "age"; "score"]
           [["Alice"; "30"; "9.5"]; ["Bob"; ""; "8"]] 0).
  - reflexivity.
  - simpl. lia.
Defined.

Lemma normalize_zero pf : normalize (linesep_of pf) "0" = "0".
Proof. destruct pf; reflexivity. Qed.

Lemma cell_row_bound (t : list (list str)) i j c :
  cell t i j = Some c -> i < List.length t.
Proof.
  unfold cell. destruct (nth_error t i) eqn:E; [|discriminate].
  intros _. apply nth_error_Some. congruence.
Qed.

(** C5.  For a grid with no row shorter than the header, the first
    pass replaces every empty cell under the header, in every row
    including row 0, by the text [0] and leaves the other cells as they
    are; normalization, the collection of distinct values and type
    inference run on the grid it leaves; and a column whose data-row
    cells are all empty is inferred, and emitted, as [numeric]. *)
Theorem C5_empty_cells (pf : platform) (h : list str) (rows : list (list str)) :
  wideb h rows = true ->
  let n := List.length h in
  let m := S (List.length rows) in
  exists st1 st,
    fill_empty_cells n m (init_locals (h :: rows)) = Ok tt st1 /\
    (forall i j c, j < n -> cell (h :: rows) i j = Some c ->
       cell (allData st1) i j = Some (if Py.is_empty c then "0" else c)) /\
    (handle_quotes (linesep_of pf) n m ;;
     find_unique n m ;;
     assign_cell_types n m ;;
     assign_column_types n m ;;
     assign_att_types ;;
     ret (n, m)) st1 = Ok (n, m) st /\
    process (linesep_of pf) (init_locals (h :: rows)) = Ok (n, m) st /\
    (forall j, j < n ->
       (forall i, 1 <= i -> i < m -> cell (h :: rows) i j = Some "") ->
       nth_error (finalDataType st) j = Some "numeric" /\
       nth_error (attTypes st) j = Some "numeric").
Proof.
  intros Hw n m.
  destruct (process_run (linesep_of pf) h rows Hw) as (ut & k & E).
  fold n m in E.
  pose proof (fill_empty_cells_run h rows (init_locals (h :: rows)) eq_refl) as H1.
  fold n m in H1.
  destruct (fill_empty_cells n m (init_locals (h :: rows))) as [[] st1|e st1] eqn:Hfill.
  2:{ destruct H1 as [H1 _]. congruence. }
  destruct H1 as [_ Hst1].
  exists st1. eexists. split; [reflexivity|]. split; [|split; [|split; [exact E|]]].
  - intros i j c Hj Hc. rewrite Hst1. cbn [allData set_allData].
    unfold range. rewrite apply_cols_cell by apply seq_NoDup.
    rewrite !mem_nat_seq, Hc.
    pose proof (cell_row_bound _ _ _ _ Hc) as Hi. simpl in Hi.
    assert (((0 <=? j) && (j <? 0 + (n - 0))) = true) as ->.
    { apply andb_true_iff. split; [apply Nat.leb_le|apply Nat.ltb_lt]; lia. }
    assert (((0 <=? i) && (i <? 0 + (m - 0))) = true) as ->.
    { apply andb_true_iff. split; [apply Nat.leb_le|apply Nat.ltb_lt]; unfold m; lia. }
    reflexivity.
  - rewrite process_cons in E. cbv zeta in E. fold n m in E.
    unfold bind at 1 in E. rewrite Hfill in E. exact E.
  - intros j Hj Hempty. cbn [finalDataType attTypes].
    assert (column_type (final_grid (linesep_of pf) h rows) m j = "numeric") as Hnum.
    { apply column_type_numeric. intros i H1 Hm.
      destruct i as [|i]; [lia|]. unfold item.
      rewrite final_cell_data by assumption.
      rewrite (Hempty (S i) H1 Hm). cbn [option_map].
      change (fill0 "") with "0". rewrite normalize_zero. reflexivity. }
    unfold column_types. rewrite nth_error_map_range by assumption.
    rewrite att_texts_nth by assumption. rewrite Hnum. split; reflexivity.
Qed.

Lemma C5_empty_cells_witness :
  exists st1 st,
    fill_empty_cells 2 3 (init_locals [["id"; "note"]; ["1"; ""]; ["2"; ""]])
      = Ok tt st1 /\
    (forall i j c, j < 2 ->
       cell [["id"; "note"]; ["1"; ""]; ["2"; ""]] i j = Some c ->
       cell (allData st1) i j = Some (if Py.is_empty c then "0" else c)) /\
    (handle_quotes (linesep_of Posix) 2 3 ;;
     find_unique 2 3 ;;
     assign_cell_types 2 3 ;;
     assign_column_types 2 3 ;;
     assign_att_types ;;
     ret (2, 3)) st1 = Ok (2, 3) st /\
    process (linesep_of Posix) (init_locals [["id"; "note"]; ["1"; ""]; ["2"; ""]])
      = Ok (2, 3) st /\
    (forall j, j < 2 ->
       (forall i, 1 <= i -> i < 3 ->
          cell [["id"; "note"]; ["1"; ""]; ["2"; ""]] i j = Some "") ->
       nth_error (finalDataType st) j = Some "numeric" /\
       nth_error (attTypes st) j = Some "numeric").
Proof.
  apply (C5_empty_cells Posix ["id"; "note"] [["1"; ""]; ["2"; ""]]).
  reflexivity.
Defined.

Lemma rect_wide h rows :
  Forall (fun r => List.length r = List.length h) rows -> wideb h rows = true.
Proof.
  intro H. unfold wideb. apply forallb_forall. intros r Hr.
  rewrite Forall_forall in H. apply Nat.leb_le. rewrite (H r Hr). lia.
Qed.

(** ** Lines of the destination *)

Lemma str_app_assoc (a b c : str) : (a +++ b) +++ c = a +++ (b +++ c).
Proof. induction a as [|x a IH]; simpl; [reflexivity|]. rewrite IH. reflexivity. Qed.

Lemma has_lf_cons c s : has_lf (String c s) = Ascii.eqb LF c || has_lf s.
Proof. reflexivity. Qed.

Lemma has_lf_append a b : has_lf (a +++ b) = has_lf a || has_lf b.
Proof.
  induction a as [|x a IH]; [reflexivity|].
  cbn [String.append]. rewrite !has_lf_cons, IH. apply orb_assoc.
Qed.

Lemma lower_char_lf c : Ascii.eqb LF (Py.lower_char c) = Ascii.eqb LF c.
Proof. destruct c as [[] [] [] [] [] [] [] []]; reflexivity. Qed.

Lemma has_lf_lower s : has_lf (Py.lower s) = has_lf s.
Proof.
  induction s as [|c s IH]; [reflexivity|].
  cbn [Py.lower]. rewrite !has_lf_cons, lower_char_lf, IH. reflexivity.
Qed.

Lemma has_lf_lstrip chars s : has_lf s = false -> has_lf (Py.lstrip chars s) = false.
Proof.
  induction s as [|c s IH]; intro H; [reflexivity|].
  cbn [Py.lstrip]. destruct (Py.mem_char c chars); [|exact H].
  apply IH. rewrite has_lf_cons in H. apply orb_false_iff in H. apply H.
Qed.

Lemma has_lf_rstrip chars s : has_lf s = false -> has_lf (Py.rstrip chars s) = false.
Proof.
  induction s as [|c s IH]; intro H; [reflexivity|].
  rewrite has_lf_cons in H. apply orb_false_iff in H. destruct H as [Hc Hs].
  specialize (IH Hs). cbn [Py.rstrip].
  destruct (Py.rstrip chars s) as [|d r].
  - destruct (Py.mem_char c chars); [reflexivity|].
    unfold chr. rewrite has_lf_cons, Hc. reflexivity.
  - rewrite has_lf_cons, Hc, IH. reflexivity.
Qed.

Lemma has_lf_replace old new s :
  has_lf new = false -> has_lf s = false ->
  has_lf (Py.replace_char old new s) = false.
Proof.
  intro Hn. induction s as [|c s IH]; intro H; [reflexivity|].
  rewrite has_lf_cons in H. apply orb_false_iff in H. destruct H as [Hc Hs].
  cbn [Py.replace_char]. destruct (Ascii.eqb c old).
  - rewrite has_lf_append, Hn, IH by assumption. reflexivity.
  - rewrite has_lf_cons, Hc, IH by assumption. reflexivity.
Qed.

Lemma has_lf_fill0 c : has_lf c = false -> has_lf (fill0 c) = false.
Proof. unfold fill0. destruct (Py.is_empty c); [reflexivity|auto]. Qed.

Lemma has_lf_normalize linesep c :
  has_lf c = false -> has_lf (normalize linesep c) = false.
Proof.
  intro H. unfold normalize. cbv zeta.
  set (v := Py.replace_char DQUOTE _ _).
  assert (has_lf v = false) as Hv.
  { unfold v. apply has_lf_replace; [reflexivity|].
    apply has_lf_replace; [reflexivity|].
    unfold Py.strip.
    repeat (apply has_lf_rstrip; apply has_lf_lstrip).
    rewrite has_lf_lower. exact H. }
  destruct (Py.is_float v); [exact Hv|].
  rewrite !has_lf_append, Hv. reflexivity.
Qed.

Lemma has_lf_join sep l :
  has_lf sep = false ->
  (forall x, In x l -> has_lf x = false) ->
  has_lf (Py.join sep l) = false.
Proof.
  intros Hs. unfold Py.join. induction l as [|x l IH]; intro H; [reflexivity|].
  cbn [String.concat]. destruct l as [|y l].
  - apply H. left. reflexivity.
  - rewrite !has_lf_append, Hs, (H x (or_introl eq_refl)), IH; [reflexivity|].
    intros z Hz. apply H. right. exact Hz.
Qed.

Lemma has_lf_uint d : has_lf (NilEmpty.string_of_uint d) = false.
Proof. induction d; simpl; try reflexivity; rewrite has_lf_cons; exact IHd. Qed.

Lemma has_lf_str_of_int n : has_lf (Py.str_of_int n) = false.
Proof.
  unfold Py.str_of_int, NilZero.string_of_uint.
  destruct (Nat.to_uint n); try reflexivity; apply has_lf_uint.
Qed.

Lemma split_lf_line l rest :
  has_lf l = false -> split_lf (l +++ String LF rest) = l :: split_lf rest.
Proof.
  induction l as [|c l IH]; intro H; [reflexivity|].
  rewrite has_lf_cons in H. apply orb_false_iff in H. destruct H as [Hc Hl].
  cbn [String.append split_lf].
  assert (Ascii.eqb c LF = false) as -> by (rewrite Ascii.eqb_sym; exact Hc).
  rewrite IH by assumption. reflexivity.
Qed.

Lemma split_unlines ls :
  (forall l, In l ls -> has_lf l = false) ->
  split_lf (unlines ls) = ls ++ [EmptyString].
Proof.
  induction ls as [|l ls IH]; intro H; [reflexivity|].
  cbn [unlines app]. rewrite split_lf_line by (apply H; left; reflexivity).
  rewrite IH; [reflexivity|]. intros x Hx. apply H. right. exact Hx.
Qed.

Lemma unlines_app a b : unlines (a ++ b) = unlines a +++ unlines b.
Proof.
  induction a as [|l a IH]; [reflexivity|].
  cbn [app unlines]. rewrite IH, str_app_assoc. reflexivity.
Qed.

Lemma file_text_app a b : file_text (a ++ b) = file_text a +++ file_text b.
Proof.
  unfold file_text. induction a as [|c a IH]; [reflexivity|].
  cbn [app fold_right]. rewrite IH, str_app_assoc. reflexivity.
Qed.

Lemma file_text_lines {A} (f : A -> str) (l : list A) :
  file_text (map (fun x => f x +++ nl) l) = unlines (map f l).
Proof.
  unfold file_text. induction l as [|x l IH]; [reflexivity|].
  cbn [map fold_right unlines]. rewrite IH, str_app_assoc. reflexivity.
Qed.

(** The text of a complete destination, line by line. *)
Lemma arff_text_lines relation names domains data :
  file_text (arff_chunks relation names domains data) =
  unlines
    (["%"; "% Comments go after a '%' sign."; "%";
      "%"; "% Relation: " +++ relation; "%"; "%";
      "% Attributes: " +++ Py.str_of_int (List.length names) +++ "     "
        +++ "Instances: " +++ Py.str_of_int (List.length data);
      "%"; "%"; "";
      "@relation " +++ chr DQUOTE +++ relation +++ chr DQUOTE; ""]
     ++ map (fun nd => "@attribute" +++ " '" +++ fst nd +++ "' " +++ snd nd)
          (combine names domains)
     ++ [""; "@data"]
     ++ map (Py.join ",") data).
Proof.
  unfold arff_chunks. rewrite !file_text_app, !unlines_app.
  apply (f_equal2 String.append).
  { unfold file_text, comment_head, comment_relation, comment_counts,
      relation_line, nl, chr. cbn [fold_right unlines].
    simpl Nat.sub. rewrite Nat.sub_0_r.
    repeat rewrite str_app_assoc. reflexivity. }
  apply (f_equal2 String.append).
  { rewrite <- file_text_lines. f_equal. apply map_ext. intros [a t].
    unfold attribute_line. cbn [fst snd]. repeat rewrite str_app_assoc. reflexivity. }
  apply (f_equal2 String.append); [reflexivity|].
  apply (file_text_lines (Py.join ",")).
Qed.

Lemma lf_free_cell (t : list (list str)) i j c :
  forallb lf_free_row t = true -> cell t i j = Some c -> has_lf c = false.
Proof.
  intros H Hc. unfold cell in Hc.
  destruct (nth_error t i) as [r|] eqn:Hr; [|discriminate].
  rewrite forallb_forall in H. specialize (H r (nth_error_In _ _ Hr)).
  unfold lf_free_row in H. rewrite forallb_forall in H.
  specialize (H c (nth_error_In _ _ Hc)). apply negb_true_iff in H. exact H.
Qed.

Lemma lf_free_item linesep h rows i j :
  forallb lf_free_row (h :: rows) = true ->
  j < List.length h -> 1 <= i ->
  has_lf (item (final_grid linesep h rows) i j) = false.
Proof.
  intros H Hj Hi. destruct i as [|i]; [lia|]. unfold item.
  rewrite final_cell_data by assumption.
  destruct (cell (h :: rows) (S i) j) as [raw|] eqn:Hc; [|reflexivity].
  cbn [option_map]. apply has_lf_normalize, has_lf_fill0.
  eapply lf_free_cell; eassumption.
Qed.

Lemma lf_free_domain linesep h rows d :
  wideb h rows = true ->
  forallb lf_free_row (h :: rows) = true ->
  In d (att_texts (final_grid linesep h rows) (List.length h) (S (List.length rows))) ->
  has_lf d = false.
Proof.
  intros Hw H Hd. apply In_nth_error in Hd. destruct Hd as (j & Hd).
  assert (j < List.length h) as Hj.
  { assert (List.length (att_texts (final_grid linesep h rows) (List.length h)
              (S (List.length rows))) = List.length h) as Hl.
    { unfold att_texts, range. rewrite length_map, length_seq. apply Nat.sub_0_r. }
    rewrite <- Hl. apply nth_error_Some. rewrite Hd. discriminate. }
  rewrite att_texts_nth in Hd by assumption.
  assert (d = if String.eqb (column_type (final_grid linesep h rows)
                               (S (List.length rows)) j) "nominal"
              then brace (column (final_grid linesep h rows) (S (List.length rows)) j)
              else column_type (final_grid linesep h rows) (S (List.length rows)) j)
    as -> by congruence.
  destruct (String.eqb _ "nominal").
  - unfold brace. rewrite !has_lf_append.
    rewrite has_lf_join; [reflexivity|reflexivity|].
    intros x Hx.
    apply (uniq_In (column (final_grid linesep h rows) (S (List.length rows)) j)) in Hx.
    unfold column in Hx. apply in_map_iff in Hx. destruct Hx as (i & <- & Hi).
    unfold range in Hi. apply in_seq in Hi.
    apply lf_free_item; try assumption. lia.
  - unfold column_type. destruct (list_contains _ _); reflexivity.
Qed.

(** C6, as stated, fails: a header field that holds a line feed, which a
    quoted CSV field may, is written as read, so that the one
    attribute declaration of this table puts two lines beginning with
    [@attribute] in the destination. *)
Lemma C6_two_attribute_lines_for_one_field :
  exists chunks,
    Forall (fun r => List.length r = List.length [name_of_two_lines]) [["1"]] /\
    dest (csv_to_arff (posix [[name_of_two_lines]; ["1"]]) "in.csv" "out.arff" "r")
      = Some chunks /\
    List.length [name_of_two_lines] = 1 /\
    List.length (filter (String.prefix "@attribute") (split_lf (file_text chunks))) = 2.
Proof.
  eexists. split; [repeat constructor|].
  split; [vm_compute; reflexivity|]. split; reflexivity.
Qed.

(** C6, amended.  For a table whose rows all have as many fields as the
    header, read without error and written to a destination that does
    not fail, when neither the relation name nor any field of the
    table contains a line feed: the call prints the success line and
    returns, and the lines of the destination are, in this order, the
    comment block, whose counts line gives the number of header fields
    as the attribute count and the number of data rows
    ([totalRows - 1]) as the instance count; the relation line and an
    empty line; exactly one attribute line per header field, in header
    order, with the domain text computed for its column (the name is
    the header field, an empty one having become [0]); an empty line
    and the data marker; and exactly one line per data row, in row
    order, made of the row's normalized fields joined by commas. *)
Theorem C6_output_lines (w : world) (fileToRead fileToWrite relation : str)
    (h : list str) (rows : list (list str)) :
  open_read w fileToRead = ReadOk (h :: rows) ->
  open_write w fileToWrite = NoFault ->
  Forall (fun r => List.length r = List.length h) rows ->
  has_lf relation = false ->
  forallb lf_free_row (h :: rows) = true ->
  exists st chunks,
    process (os_linesep w) (init_locals (h :: rows))
      = Ok (List.length h, S (List.length rows)) st /\
    List.length (attTypes st) = List.length h /\
    csv_to_arff w fileToRead fileToWrite relation =
    mkRun Returned
      ["'" +++ fileToWrite +++ "' was converted from '" +++ fileToRead +++ "'"]
      (Some chunks) /\
    split_lf (file_text chunks) =
    ["%"; "% Comments go after a '%' sign."; "%";
     "%"; "% Relation: " +++ relation; "%"; "%";
     "% Attributes: " +++ Py.str_of_int (List.length h) +++ "     "
       +++ "Instances: " +++ Py.str_of_int (List.length rows);
     "%"; "%"; "";
     "@relation " +++ chr DQUOTE +++ relation +++ chr DQUOTE; ""]
    ++ map (fun nd => "@attribute" +++ " '" +++ fst nd +++ "' " +++ snd nd)
         (combine (map fill0 h) (attTypes st))
    ++ [""; "@data"]
    ++ map (fun r =>
              Py.join "," (map (fun c => normalize (os_linesep w) (fill0 c)) r)) rows
    ++ [""].
Proof.
  intros Hr Hf Hrect Hrel Hlf.
  pose proof (rect_wide h rows Hrect) as Hw.
  destruct (process_run (os_linesep w) h rows Hw) as (ut & k & E).
  eexists. eexists. split; [exact E|]. cbn [attTypes].
  set (A := att_texts _ _ _).
  assert (List.length A = List.length h) as HA.
  { unfold A, att_texts, range. rewrite length_map, length_seq. apply Nat.sub_0_r. }
  split; [exact HA|]. split.
  { apply (csv_to_arff_ok w fileToRead fileToWrite relation h rows Hr Hw Hf). }
  fold A. rewrite arff_text_lines. rewrite !length_map.
  assert (map (norm_row (os_linesep w) (List.length h)) rows
          = map (map (fun c => normalize (os_linesep w) (fill0 c))) rows) as Hrows.
  { apply map_ext_in. intros r Hin. rewrite Forall_forall in Hrect.
    apply norm_row_wide. apply Hrect. exact Hin. }
  rewrite Hrows, map_map.
  rewrite split_unlines.
  { rewrite <- !app_assoc. reflexivity. }
  assert (forall x, In x h -> has_lf x = false) as Hh.
  { intros x Hx. simpl in Hlf. apply andb_true_iff in Hlf. destruct Hlf as [Hlf _].
    unfold lf_free_row in Hlf. rewrite forallb_forall in Hlf.
    apply negb_true_iff. apply Hlf. exact Hx. }
  intros l Hl. apply in_app_or in Hl. destruct Hl as [Hl|Hl].
  { cbn [In] in Hl.
    repeat (destruct Hl as [<-|Hl];
            [rewrite ?has_lf_append, ?Hrel, ?has_lf_str_of_int; reflexivity|]).
    contradiction. }
  apply in_app_or in Hl. destruct Hl as [Hl|Hl].
  { apply in_map_iff in Hl. destruct Hl as ([a t] & <- & Hin). cbn [fst snd].
    rewrite !has_lf_append.
    assert (has_lf a = false) as ->.
    { apply in_combine_l in Hin. apply in_map_iff in Hin.
      destruct Hin as (x & <- & Hx). apply has_lf_fill0. apply Hh. exact Hx. }
    assert (has_lf t = false) as ->.
    { apply in_combine_r in Hin.
      apply (lf_free_domain (os_linesep w) h rows t Hw Hlf Hin). }
    reflexivity. }
  apply in_app_or in Hl. destruct Hl as [Hl|Hl].
  { cbn [In] in Hl. destruct Hl as [<-|[<-|[]]]; reflexivity. }
  apply in_map_iff in Hl. destruct Hl as (r & <- & Hin).
  apply has_lf_join; [reflexivity|].
  intros x Hx. apply in_map_iff in Hx. destruct Hx as (c & <- & Hc).
  apply has_lf_normalize, has_lf_fill0.
  simpl in Hlf. apply andb_true_iff in Hlf. destruct Hlf as [_ Hlf].
  rewrite forallb_forall in Hlf. specialize (Hlf r Hin).
  unfold lf_free_row in Hlf. rewrite forallb_forall in Hlf.
  apply negb_true_iff. apply Hlf. exact Hc.
Qed.

Lemma C6_output_lines_witness :
  exists st chunks,
    process (os_linesep (posix example_rows)) (init_locals example_rows)
      = Ok (3, 3) st /\
    List.length (attTypes st) = 3 /\
    csv_to_arff (posix example_rows) "in.csv" "out.arff" "people" =
    mkRun Returned
      ["'" +++ "out.arff" +++ "' was converted from '" +++ "in.csv" +++ "'"]
      (Some chunks) /\
    split_lf (file_text chunks) =
    ["%"; "% Comments go after a '%' sign."; "%";
     "%"; "% Relation: " +++ "people"; "%"; "%";
     "% Attributes: " +++ Py.str_of_int 3 +++ "     "
       +++ "Instances: " +++ Py.str_of_int 2;
     "%"; "%"; "";
     "@relation " +++ chr DQUOTE +++ "people" +++ chr DQUOTE; ""]
    ++ map (fun nd => "@attribute" +++ " '" +++ fst nd +++ "' " +++ snd nd)
         (combine (map fill0 ["name"; "age"; "score"]) (attTypes st))
    ++ [""; "@data"]
    ++ map (fun r =>
              Py.join ","
                (map (fun c => normalize (os_linesep (posix example_rows)) (fill0 c)) r))
         [["Alice"; "30"; "9.5"]; ["Bob"; ""; "8"]]
    ++ [""].
Proof.
  apply (C6_output_lines (posix example_rows) "in.csv" "out.arff" "people"
           ["name"; "age"; "score"] [["Alice"; "30"; "9.5"]; ["Bob"; ""; "8"]]).
  - reflexivity.
  - reflexivity.
  - repeat constructor.
  - reflexivity.
  - reflexivity.
Defined.

(** C7.  When the source cannot be read (it does not exist, or reading
    it fails in another way), the call prints one line that names the
    source - the not-found line when the file does not exist - and
    returns; the destination is never opened, so it is neither created
    nor touched. *)
Theorem C7_source_not_readable (w : world)
    (fileToRead fileToWrite relation : str) :
  (forall rows, open_read w fileToRead <> ReadOk rows) ->
  csv_to_arff w fileToRead fileToWrite relation =
  mkRun Returned
    [match open_read w fileToRead with
     | ReadFailed e => "Error reading file '" +++ fileToRead +++ "': " +++ e
     | _ => "Error: File '" +++ fileToRead +++ "' not found."
     end]
    None.
Proof.
  intro H. unfold csv_to_arff.
  destruct (open_read w fileToRead) as [| e | rows]; try reflexivity.
  exfalso. exact (H rows eq_refl).
Qed.

Lemma C7_source_not_readable_witness :
  csv_to_arff no_files "missing.csv" "out.arff" "r" =
  mkRun Returned ["Error: File 'missing.csv' not found."] None.
Proof.
  apply (C7_source_not_readable no_files "missing.csv" "out.arff" "r").
  intros rows. simpl. discriminate.
Defined.

(** C9.  A source that is read without error but has no row makes the
    call raise [IndexError] at [allData[0]]: nothing is printed, the
    call does not return normally, and the destination is never
    opened. *)
Theorem C9_no_rows_raises (w : world) (fileToRead fileToWrite relation : str) :
  open_read w fileToRead = ReadOk [] ->
  csv_to_arff w fileToRead fileToWrite relation = mkRun (Raised IndexError) [] None.
Proof.
  intro H. unfold csv_to_arff. rewrite H. reflexivity.
Qed.

Lemma C9_no_rows_raises_witness :
  csv_to_arff (posix []) "empty.csv" "out.arff" "r" = mkRun (Raised IndexError) [] None.
Proof.
  apply (C9_no_rows_raises (posix []) "empty.csv" "out.arff" "r").
  reflexivity.
Defined.

Lemma nth_error_combine {A B} (l1 : list A) (l2 : list B) j a b :
  nth_error l1 j = Some a -> nth_error l2 j = Some b ->
  nth_error (combine l1 l2) j = Some (a, b).
Proof.
  revert l2 j. induction l1 as [|x l1 IH]; intros [|y l2] [|j] H1 H2;
    simpl in *; try discriminate.
  - congruence.
  - apply IH; assumption.
Qed.

(** C10.  For a grid with no row shorter than the header and a
    destination that can be written, the attribute line of column [j]
    (the chunk written after the four chunks of the head) carries the
    header field exactly as it was read, between single quotes,
    followed by the domain text of the column, whenever that field is
    not empty: no pass rewrites row 0 except the empty-cell pass. *)
Theorem C10_attribute_name_verbatim (w : world)
    (fileToRead fileToWrite relation : str)
    (h : list str) (rows : list (list str)) (j : nat) (name : str) :
  open_read w fileToRead = ReadOk (h :: rows) ->
  wideb h rows = true ->
  open_write w fileToWrite = NoFault ->
  nth_error h j = Some name ->
  name <> "" ->
  exists st chunks,
    process (os_linesep w) (init_locals (h :: rows))
      = Ok (List.length h, S (List.length rows)) st /\
    dest (csv_to_arff w fileToRead fileToWrite relation) = Some chunks /\
    nth_error chunks (4 + j)
      = Some ("@attribute" +++ " '" +++ name +++ "' " +++ nth j (attTypes st) ""
                +++ nl).
Proof.
  intros Hr Hw Hf Hname Hne.
  destruct (process_run (os_linesep w) h rows Hw) as (ut & k & E).
  eexists. eexists. split; [exact E|].
  rewrite (csv_to_arff_ok w fileToRead fileToWrite relation h rows Hr Hw Hf).
  cbn [dest attTypes]. split; [reflexivity|].
  assert (j < List.length h) as Hj by (apply nth_error_Some; congruence).
  set (A := att_texts _ _ _).
  assert (List.length A = List.length h) as HA.
  { unfold A, att_texts, range. rewrite length_map, length_seq. apply Nat.sub_0_r. }
  unfold arff_chunks. cbn [app Nat.add nth_error].
  rewrite nth_error_app1.
  2:{ rewrite length_map, length_combine, length_map. lia. }
  rewrite nth_error_map.
  rewrite (nth_error_combine (map fill0 h) A j (fill0 name) (nth j A "")).
  - unfold fill0. destruct name; [contradiction|]. reflexivity.
  - rewrite nth_error_map, Hname. reflexivity.
  - apply nth_error_nth'. lia.
Qed.

Lemma C10_attribute_name_verbatim_witness :
  exists st chunks,
    process (os_linesep (posix [["First Name"; "Age"]; ["Ann"; "7"]]))
      (init_locals [["First Name"; "Age"]; ["Ann"; "7"]]) = Ok (2, 2) st /\
    dest (csv_to_arff (posix [["First Name"; "Age"]; ["Ann"; "7"]])
            "in.csv" "out.arff" "r") = Some chunks /\
    nth_error chunks (4 + 0)
      = Some ("@attribute" +++ " '" +++ "First Name" +++ "' "
                +++ nth 0 (attTypes st) "" +++ nl).
Proof.
  apply (C10_attribute_name_verbatim
           (posix [["First Name"; "Age"]; ["Ann"; "7"]]) "in.csv" "out.arff" "r"
           ["First Name"; "Age"] [["Ann"; "7"]] 0 "First Name").
  - reflexivity.
  - reflexivity.
  - reflexivity.
  - reflexivity.
  - discriminate.
Defined.

(** C2, as stated, fails: a data row shorter than the header makes the
    call raise [IndexError] to its caller. *)
Lemma C2_short_row_raises :
  csv_to_arff (posix [["a"; "b"]; ["1"]]) "in.csv" "out.arff" "r"
  = mkRun (Raised IndexError) [] None.
Proof. vm_compute. reflexivity. Qed.

(** C2, amended.  A failure to read the source and a failure to open or
    write the destination are caught inside the call, which prints one
    line naming the path and returns.  The passes between the two are
    not guarded: on a source with no row, or with a row shorter than
    the header, the call raises [IndexError] to its caller, having
    printed nothing and without opening the destination, so that no
    destination is written. *)
Theorem C2_error_handling (w : world) (fileToRead fileToWrite relation : str) :
  let r := csv_to_arff w fileToRead fileToWrite relation in
  match open_read w fileToRead with
  | ReadNotFound =>
      r = mkRun Returned ["Error: File '" +++ fileToRead +++ "' not found."] None
  | ReadFailed e =>
      r = mkRun Returned ["Error reading file '" +++ fileToRead +++ "': " +++ e] None
  | ReadOk [] => r = mkRun (Raised IndexError) [] None
  | ReadOk (h :: rows) =>
      if wideb h rows then
        ended r = Returned /\
        (printed r =
           ["'" +++ fileToWrite +++ "' was converted from '" +++ fileToRead +++ "'"]
         \/ exists e,
              printed r = ["Error writing to file '" +++ fileToWrite +++ "': " +++ e])
      else r = mkRun (Raised IndexError) [] None
  end.
Proof.
  intro r. subst r. unfold csv_to_arff.
  destruct (open_read w fileToRead) as [| e | [|h rows]]; try reflexivity.
  destruct (wideb h rows) eqn:Hw.
  - destruct (process_run (os_linesep w) h rows Hw) as (ut & k & E). rewrite E.
    destruct (write_arff _ _ _ _ _) as [[] st'|e st']; cbn [ended printed].
    + split; [reflexivity|]. left. reflexivity.
    + split; [reflexivity|]. right. exists (str_of_exn e). reflexivity.
  - destruct (process_raise (os_linesep w) h rows Hw) as (st & E). rewrite E.
    reflexivity.
Qed.

(** * Further properties of the routine *)

(** ** A destination that fails *)

(** X1.  When the destination cannot be opened for writing, a grid with
    no row shorter than the header is still processed to the end, and
    the call prints the write-error line with the message of the
    exception, returns, and leaves the destination unopened. *)
Theorem X1_open_for_writing_fails (w : world)
    (fileToRead fileToWrite relation : str)
    (h : list str) (rows : list (list str)) (e : str) :
  open_read w fileToRead = ReadOk (h :: rows) ->
  wideb h rows = true ->
  open_write w fileToWrite = OpenFault e ->
  csv_to_arff w fileToRead fileToWrite relation =
  mkRun Returned ["Error writing to file '" +++ fileToWrite +++ "': " +++ e] None.
Proof.
  intros Hr Hw Hf. unfold csv_to_arff. rewrite Hr, Hf.
  destruct (process_run (os_linesep w) h rows Hw) as (ut & k & E). rewrite E.
  reflexivity.
Qed.

Lemma X1_open_for_writing_fails_witness :
  csv_to_arff (faulty example_rows (OpenFault "Permission denied"))
    "in.csv" "out.arff" "people" =
  mkRun Returned ["Error writing to file 'out.arff': Permission denied"] None.
Proof.
  apply (X1_open_for_writing_fails
           (faulty example_rows (OpenFault "Permission denied"))
           "in.csv" "out.arff" "people"
           ["name"; "age"; "score"] [["Alice"; "30"; "9.5"]; ["Bob"; ""; "8"]]
           "Permission denied"); reflexivity.
Defined.

Section FailingWrites.

Variable st : locals.
Variable k : nat.
Variables kept e : str.

Lemma fw_write chunk :
  fails_or_writes kept e st (write (WriteFault k kept e) chunk).
Proof.
  intro cs. unfold write, fail_w, bind, gets, raise. setters.
  destruct (List.length cs =? k); [left|right; eexists]; reflexivity.
Qed.

Lemma fw_bind m1 m2 :
  fails_or_writes kept e st m1 -> fails_or_writes kept e st m2 ->
  fails_or_writes kept e st (m1 ;; m2).
Proof.
  intros H1 H2 cs. unfold bind.
  destruct (H1 cs) as [->|(cs' & ->)]; [left; reflexivity|]. apply H2.
Qed.

Lemma fw_ret : fails_or_writes kept e st (ret tt).
Proof. intro cs. right. exists cs. reflexivity. Qed.

Lemma fw_attr l :
  (forall i, In i l ->
     cell (allData st) 0 i <> None /\ i < List.length (attTypes st)) ->
  fails_or_writes kept e st (for_each l (attr_body (WriteFault k kept e))).
Proof.
  induction l as [|i l IH]; intro Hin.
  - apply fw_ret.
  - cbn [for_each]. apply fw_bind; [|apply IH; auto with datatypes].
    intro cs. unfold attr_body, bind, get_attribute. rewrite get_cell_run.
    setters.
    destruct (Hin i (or_introl eq_refl)) as [Hc Hi].
    destruct (cell (allData st) 0 i) as [a|]; [|contradiction].
    setters. unfold getitem. rewrite (nth_error_nth' (attTypes st) "" Hi). setters.
    apply (fw_write _ cs).
Qed.

Lemma fw_data l :
  (forall i, In i l -> i < List.length (allData st)) ->
  fails_or_writes kept e st (for_each l (data_body (WriteFault k kept e))).
Proof.
  induction l as [|i l IH]; intro Hin.
  - apply fw_ret.
  - cbn [for_each]. apply fw_bind; [|apply IH; auto with datatypes].
    intro cs. unfold data_body, bind. setters. unfold getitem.
    rewrite (nth_error_nth' (allData st) []) by (auto with datatypes).
    setters. apply (fw_write _ cs).
Qed.

Lemma fails_close : fails kept e st (close_w (WriteFault k kept e)).
Proof. intro cs. reflexivity. Qed.

Lemma fails_bind m1 m2 :
  fails_or_writes kept e st m1 -> fails kept e st m2 -> fails kept e st (m1 ;; m2).
Proof.
  intros H1 H2 cs. unfold bind.
  destruct (H1 cs) as [->|(cs' & ->)]; [reflexivity|]. apply H2.
Qed.

End FailingWrites.

Lemma write_arff_fault_run relation linesep h rows D ut U F A q k kept e :
  wideb h rows = true ->
  List.length A = List.length h ->
  let st := mkLocals (final_grid linesep h rows) D [] ut U [] F A q None in
  write_arff (WriteFault k kept e) relation (List.length h) (S (List.length rows)) st
  = Raise (OSError e) (set_writeFile (Some [kept]) st).
Proof.
  intros Hw HA st. rewrite write_arff_unfold.
  unfold bind at 1. unfold open_w. setters.
  change (mkLocals (allData st) (dataType st) (columnsTemp st) (uniqueTemp st)
            (uniqueOfColumn st) (dataTypeTemp st) (finalDataType st) (attTypes st)
            (p st) (Some [])) with (set_writeFile (Some []) st).
  assert (fails kept e st
            (write (WriteFault k kept e) comment_head ;;
             write (WriteFault k kept e) (comment_relation relation) ;;
             write (WriteFault k kept e)
               (comment_counts (List.length h) (S (List.length rows))) ;;
             write (WriteFault k kept e) (relation_line relation) ;;
             for_each (range 0 (List.length h)) (attr_body (WriteFault k kept e)) ;;
             write (WriteFault k kept e) data_marker ;;
             for_each (range 1 (S (List.length rows)))
               (data_body (WriteFault k kept e)) ;;
             close_w (WriteFault k kept e))) as H.
  { repeat (apply fails_bind; [apply fw_write|]).
    apply fails_bind.
    - apply fw_attr. intros i Hi. apply in_range_lt in Hi. split.
      + apply (final_grid_in_bounds linesep h rows Hw); lia.
      + simpl. lia.
    - apply fails_bind; [apply fw_write|].
      apply fails_bind; [|apply fails_close].
      apply fw_data. intros i Hi. apply in_range_lt in Hi.
      simpl. rewrite length_map. exact Hi. }
  apply (H []).
Qed.

(** X2.  When an [OSError] is raised while the output is written, be it
    by one of the [write] calls or only by the close that ends the
    [with] block, the call prints the write-error line with the message
    of the exception and returns; the success line is not printed.
    The destination has been opened; what it holds is what the
    operating system kept. *)
Theorem X2_write_error_reported (w : world)
    (fileToRead fileToWrite relation : str)
    (h : list str) (rows : list (list str)) (k : nat) (kept e : str) :
  open_read w fileToRead = ReadOk (h :: rows) ->
  wideb h rows = true ->
  open_write w fileToWrite = WriteFault k kept e ->
  csv_to_arff w fileToRead fileToWrite relation =
  mkRun Returned ["Error writing to file '" +++ fileToWrite +++ "': " +++ e]
    (Some [kept]).
Proof.
  intros Hr Hw Hf. unfold csv_to_arff. rewrite Hr, Hf.
  destruct (process_run (os_linesep w) h rows Hw) as (ut & q & E). rewrite E.
  rewrite write_arff_fault_run.
  - reflexivity.
  - assumption.
  - unfold att_texts, range. rewrite length_map, length_seq. apply Nat.sub_0_r.
Qed.

Lemma X2_write_error_reported_witness :
  csv_to_arff (faulty example_rows (WriteFault 100 "" "No space left on device"))
    "in.csv" "out.arff" "people" =
  mkRun Returned ["Error writing to file 'out.arff': No space left on device"]
    (Some [""]).
Proof.
  apply (X2_write_error_reported
           (faulty example_rows (WriteFault 100 "" "No space left on device"))
           "in.csv" "out.arff" "people"
           ["name"; "age"; "score"] [["Alice"; "30"; "9.5"]; ["Bob"; ""; "8"]]
           100 "" "No space left on device"); reflexivity.
Defined.

(** ** Grids of unusual shape *)

Lemma att_texts_length T n m : List.length (att_texts T n m) = n.
Proof. unfold att_texts, range. rewrite length_map, length_seq. apply Nat.sub_0_r. Qed.

(** X3.  A data row longer than the header keeps its extra fields as
    they were read: on its line of the data section the fields under
    the header are normalized, and the fields beyond the header follow
    unchanged (not lower-cased, not quoted, an empty one left empty). *)
Theorem X3_fields_beyond_header (w : world)
    (fileToRead fileToWrite relation : str)
    (h : list str) (rows : list (list str)) (i : nat) (r : list str) :
  open_read w fileToRead = ReadOk (h :: rows) ->
  wideb h rows = true ->
  open_write w fileToWrite = NoFault ->
  nth_error rows i = Some r ->
  exists chunks,
    dest (csv_to_arff w fileToRead fileToWrite relation) = Some chunks /\
    nth_error chunks (5 + List.length h + i) =
    Some (Py.join ","
            (map (fun c => normalize (os_linesep w) (fill0 c)) (firstn (List.length h) r)
             ++ skipn (List.length h) r) +++ nl).
Proof.
  intros Hr Hw Hf Hrow.
  rewrite (csv_to_arff_ok w fileToRead fileToWrite relation h rows Hr Hw Hf).
  cbn [dest]. eexists. split; [reflexivity|].
  unfold arff_chunks.
  rewrite nth_error_app2 by (simpl; lia). simpl List.length.
  replace (5 + List.length h + i - 4) with (List.length h + S i) by lia.
  assert (List.length
            (map (fun nd : str * str => attribute_line (fst nd) (snd nd))
               (combine (map fill0 h)
                  (att_texts (final_grid (os_linesep w) h rows) (List.length h)
                     (S (List.length rows))))) = List.length h) as Hlen.
  { rewrite length_map, length_combine, length_map, att_texts_length.
    apply Nat.min_id. }
  rewrite nth_error_app2 by (rewrite Hlen; lia). rewrite Hlen.
  replace (List.length h + S i - List.length h) with (S i) by lia.
  cbn [app nth_error]. rewrite !nth_error_map, Hrow. reflexivity.
Qed.

Lemma X3_fields_beyond_header_witness :
  exists chunks,
    dest (csv_to_arff (posix [["id"]; ["7"; "Extra"; ""]]) "in.csv" "out.arff" "r")
      = Some chunks /\
    nth_error chunks (5 + 1 + 0) =
    Some (Py.join ","
            (map (fun c => normalize (os_linesep (posix [["id"]; ["7"; "Extra"; ""]]))
                             (fill0 c)) (firstn 1 ["7"; "Extra"; ""])
             ++ skipn 1 ["7"; "Extra"; ""]) +++ nl).
Proof.
  apply (X3_fields_beyond_header (posix [["id"]; ["7"; "Extra"; ""]])
           "in.csv" "out.arff" "r" ["id"] [["7"; "Extra"; ""]] 0 ["7"; "Extra"; ""]);
    reflexivity.
Defined.

Lemma wideb_nil rows : wideb [] rows = true.
Proof. unfold wideb. apply forallb_forall. intros r _. reflexivity. Qed.

(** X4.  When row 0 has no field (a source that starts with an empty
    line), the call succeeds whatever the other rows are: it declares
    zero attributes, writes no attribute line, and writes every other
    row exactly as read, without filling, lower-casing or quoting. *)
Theorem X4_empty_header (w : world) (fileToRead fileToWrite relation : str)
    (rows : list (list str)) :
  open_read w fileToRead = ReadOk ([] :: rows) ->
  open_write w fileToWrite = NoFault ->
  csv_to_arff w fileToRead fileToWrite relation =
  mkRun Returned
    ["'" +++ fileToWrite +++ "' was converted from '" +++ fileToRead +++ "'"]
    (Some ([comment_head;
            comment_relation relation;
            "% Attributes: " +++ "0" +++ "     " +++ "Instances: "
              +++ Py.str_of_int (List.length rows)
              +++ nl +++ "%" +++ nl +++ "%" +++ nl +++ nl;
            relation_line relation;
            nl +++ "@data" +++ nl]
           ++ map (fun r => Py.join "," r +++ nl) rows)).
Proof.
  intros Hr Hf.
  rewrite (csv_to_arff_ok w fileToRead fileToWrite relation [] rows Hr
             (wideb_nil rows) Hf).
  cbv zeta. do 2 f_equal. unfold arff_chunks. cbn [map combine app List.length].
  rewrite length_map. unfold comment_counts. simpl Nat.sub. rewrite Nat.sub_0_r.
  do 5 f_equal. rewrite map_map. apply map_ext. intro r.
  unfold norm_row. simpl. reflexivity.
Qed.

Lemma X4_empty_header_witness :
  csv_to_arff (posix [[]; ["A"; ""]]) "in.csv" "out.arff" "r" =
  mkRun Returned
    ["'" +++ "out.arff" +++ "' was converted from '" +++ "in.csv" +++ "'"]
    (Some ([comment_head;
            comment_relation "r";
            "% Attributes: " +++ "0" +++ "     " +++ "Instances: "
              +++ Py.str_of_int 1
              +++ nl +++ "%" +++ nl +++ "%" +++ nl +++ nl;
            relation_line "r";
            nl +++ "@data" +++ nl]
           ++ map (fun r => Py.join "," r +++ nl) [["A"; ""]])).
Proof.
  apply (X4_empty_header (posix [[]; ["A"; ""]]) "in.csv" "out.arff" "r" [["A"; ""]]);
    reflexivity.
Defined.

Lemma map_combine_const {A B C} (f : A * B -> C) (c : B) (l1 : list A) (l2 : list B) :
  List.length l2 = List.length l1 ->
  (forall x, In x l2 -> x = c) ->
  map f (combine l1 l2) = map (fun a => f (a, c)) l1.
Proof.
  revert l2. induction l1 as [|a l1 IH]; intros [|b l2] Hlen Hall; simpl in *;
    try discriminate; [reflexivity|].
  rewrite (Hall b (or_introl eq_refl)). f_equal. apply IH; [lia|].
  intros x Hx. apply Hall. right. assumption.
Qed.

(** X5.  A source with a header and no data row is converted without
    error: every attribute is declared [numeric], the instance count is
    0, and nothing follows the data marker. *)
Theorem X5_header_only (w : world) (fileToRead fileToWrite relation : str)
    (h : list str) :
  open_read w fileToRead = ReadOk [h] ->
  open_write w fileToWrite = NoFault ->
  csv_to_arff w fileToRead fileToWrite relation =
  mkRun Returned
    ["'" +++ fileToWrite +++ "' was converted from '" +++ fileToRead +++ "'"]
    (Some ([comment_head;
            comment_relation relation;
            "% Attributes: " +++ Py.str_of_int (List.length h) +++ "     "
              +++ "Instances: " +++ "0" +++ nl +++ "%" +++ nl +++ "%" +++ nl +++ nl;
            relation_line relation]
           ++ map (fun a => "@attribute" +++ " '"
                              +++ (if Py.is_empty a then "0" else a)
                              +++ "' " +++ "numeric" +++ nl) h
           ++ [nl +++ "@data" +++ nl])).
Proof.
  intros Hr Hf.
  rewrite (csv_to_arff_ok w fileToRead fileToWrite relation h [] Hr eq_refl Hf).
  cbv zeta. do 2 f_equal. unfold arff_chunks. rewrite length_map.
  apply (f_equal2 (@app _)); [reflexivity|].
  apply (f_equal2 (@app _)); [|reflexivity].
  rewrite (map_combine_const _ "numeric").
  - rewrite map_map. apply map_ext. intro a. reflexivity.
  - rewrite att_texts_length, length_map. reflexivity.
  - intros x Hx. apply In_nth_error in Hx. destruct Hx as (j & Hj).
    cbn [List.length] in Hj.
    assert (j < List.length h) as Hlt.
    { rewrite <- (att_texts_length (final_grid (os_linesep w) h []) (List.length h) 1).
      apply nth_error_Some. rewrite Hj. discriminate. }
    rewrite att_texts_nth in Hj by assumption.
    assert (column_type (final_grid (os_linesep w) h []) 1 j = "numeric") as Hn.
    { apply column_type_numeric. intros i H1 H2. lia. }
    rewrite Hn in Hj. simpl String.eqb in Hj. cbv iota in Hj. congruence.
Qed.

Lemma X5_header_only_witness :
  csv_to_arff (posix [["A"; ""]]) "in.csv" "out.arff" "r" =
  mkRun Returned
    ["'" +++ "out.arff" +++ "' was converted from '" +++ "in.csv" +++ "'"]
    (Some ([comment_head;
            comment_relation "r";
            "% Attributes: " +++ Py.str_of_int 2 +++ "     "
              +++ "Instances: " +++ "0" +++ nl +++ "%" +++ nl +++ "%" +++ nl +++ nl;
            relation_line "r"]
           ++ map (fun a => "@attribute" +++ " '"
                              +++ (if Py.is_empty a then "0" else a)
                              +++ "' " +++ "numeric" +++ nl) ["A"; ""]
           ++ [nl +++ "@data" +++ nl])).
Proof.
  apply (X5_header_only (posix [["A"; ""]]) "in.csv" "out.arff" "r" ["A"; ""]);
    reflexivity.
Defined.

(** X6.  An empty header field is named [0] in the destination: the
    empty-cell pass also visits row 0, and the attribute names are read
    from that same row when the destination is written. *)
Theorem X6_empty_header_field (w : world)
    (fileToRead fileToWrite relation : str)
    (h : list str) (rows : list (list str)) (j : nat) :
  open_read w fileToRead = ReadOk (h :: rows) ->
  wideb h rows = true ->
  open_write w fileToWrite = NoFault ->
  nth_error h j = Some "" ->
  exists st chunks,
    process (os_linesep w) (init_locals (h :: rows))
      = Ok (List.length h, S (List.length rows)) st /\
    cell (allData st) 0 j = Some "0" /\
    dest (csv_to_arff w fileToRead fileToWrite relation) = Some chunks /\
    nth_error chunks (4 + j)
      = Some ("@attribute" +++ " '" +++ "0" +++ "' " +++ nth j (attTypes st) ""
                +++ nl).
Proof.
  intros Hr Hw Hf Hname.
  destruct (process_run (os_linesep w) h rows Hw) as (ut & k & E).
  eexists. eexists. split; [exact E|].
  rewrite (csv_to_arff_ok w fileToRead fileToWrite relation h rows Hr Hw Hf).
  cbn [dest attTypes allData]. split; [|split; [reflexivity|]].
  { rewrite final_cell_header. unfold cell. cbn [nth_error]. rewrite Hname.
    reflexivity. }
  assert (j < List.length h) as Hj by (apply nth_error_Some; congruence).
  set (A := att_texts _ _ _).
  assert (List.length A = List.length h) as HA by apply att_texts_length.
  unfold arff_chunks. cbn [app Nat.add nth_error].
  rewrite nth_error_app1.
  2:{ rewrite length_map, length_combine, length_map. lia. }
  rewrite nth_error_map.
  rewrite (nth_error_combine (map fill0 h) A j "0" (nth j A "")).
  - reflexivity.
  - rewrite nth_error_map, Hname. reflexivity.
  - apply nth_error_nth'. lia.
Qed.

Lemma X6_empty_header_field_witness :
  exists st chunks,
    process (os_linesep (posix [["id"; ""]; ["1"; "x"]]))
      (init_locals [["id"; ""]; ["1"; "x"]]) = Ok (2, 2) st /\
    cell (allData st) 0 1 = Some "0" /\
    dest (csv_to_arff (posix [["id"; ""]; ["1"; "x"]]) "in.csv" "out.arff" "r")
      = Some chunks /\
    nth_error chunks (4 + 1)
      = Some ("@attribute" +++ " '" +++ "0" +++ "' " +++ nth 1 (attTypes st) ""
                +++ nl).
Proof.
  apply (X6_empty_header_field (posix [["id"; ""]; ["1"; "x"]])
           "in.csv" "out.arff" "r" ["id"; ""] [["1"; "x"]] 1); reflexivity.
Defined.

(** ** What the normalized cells look like *)

Lemma final_cell_is_normalized linesep h rows i j c :
  j < List.length h ->
  cell (final_grid linesep h rows) (S i) j = Some c ->
  exists raw,
    cell (h :: rows) (S i) j = Some raw /\ c = normalize linesep (fill0 raw).
Proof.
  intros Hj Hc. rewrite final_cell_data in Hc by assumption.
  destruct (cell (h :: rows) (S i) j) as [raw|]; [|discriminate].
  exists raw. split; [reflexivity|]. simpl in Hc. congruence.
Qed.

Lemma inner_dquote s : Py.float_from_string_inner (String DQUOTE s) = false.
Proof. reflexivity. Qed.

Lemma underscores_dquote s :
  match Py.underscores_loop NUL (String DQUOTE s) with
  | Some dup => exists d, dup = String DQUOTE d
  | None => True
  end.
Proof.
  simpl. destruct (Py.underscores_loop DQUOTE s) as [d|]; simpl; eauto.
Qed.

Lemma number_dquote s :
  Py.string_to_number_with_underscores Py.float_from_string_inner (String DQUOTE s)
  = false.
Proof.
  unfold Py.string_to_number_with_underscores.
  destruct (Py.strchr (String DQUOTE s) "_").
  - pose proof (underscores_dquote s) as H.
    destruct (Py.underscores_loop NUL (String DQUOTE s)) as [dup|]; [|reflexivity].
    destruct H as [d ->]. apply inner_dquote.
  - apply inner_dquote.
Qed.

(** [float] raises on every text that begins with a double quote. *)
Lemma is_float_dquote s : Py.is_float (String DQUOTE s) = false.
Proof.
  unfold Py.is_float, Py.TransformDecimalAndSpaceToASCII.
  destruct (Py.is_ascii (String DQUOTE s)).
  - apply number_dquote.
  - change (Py.transform_loop (String DQUOTE s))
      with (String DQUOTE (Py.transform_loop s)).
    apply number_dquote.
Qed.

(** The second float test (line 100) agrees with the first (line 84):
    a value left unquoted parses, a quoted one does not. *)
Lemma normalize_cases linesep c :
  (Py.is_float (normalize linesep c) = true /\
   forall s, normalize linesep c <> String DQUOTE s) \/
  (Py.is_float (normalize linesep c) = false /\
   exists s, normalize linesep c = String DQUOTE s).
Proof.
  unfold normalize. cbv zeta.
  set (v := Py.replace_char DQUOTE _ _).
  destruct (Py.is_float v) eqn:Ev.
  - left. split; [exact Ev|]. intros s Es.
    rewrite Es, is_float_dquote in Ev. discriminate.
  - right. split; [apply is_float_dquote|]. eexists. reflexivity.
Qed.

(** X7.  The type of a column can be read off the data section: for a
    grid with no row shorter than the header, column [j] is inferred
    [nominal] if and only if some data-row cell of the column is
    written between double quotes (begins with a double quote), since
    [float] rejects every text that begins with a double quote and the
    normalization pass quotes exactly the values [float] rejected. *)
Theorem X7_nominal_iff_quoted (linesep : str) (h : list str)
    (rows : list (list str)) (j : nat) :
  wideb h rows = true ->
  j < List.length h ->
  exists st,
    process linesep (init_locals (h :: rows))
      = Ok (List.length h, S (List.length rows)) st /\
    (nth_error (finalDataType st) j = Some "nominal" <->
     exists i s, 1 <= i /\ cell (allData st) i j = Some (String DQUOTE s)) /\
    (nth_error (finalDataType st) j = Some "numeric" <->
     forall i c, 1 <= i -> cell (allData st) i j = Some c ->
       forall s, c <> String DQUOTE s).
Proof.
  intros Hw Hj.
  destruct (process_run linesep h rows Hw) as (ut & k & E).
  eexists. split; [exact E|].
  set (T := final_grid linesep h rows).
  set (m := S (List.length rows)).
  cbn [finalDataType allData]. unfold column_types.
  rewrite nth_error_map_range by assumption.
  assert (forall i c, 1 <= i -> cell T i j = Some c ->
            (Py.is_float c = false <-> exists s, c = String DQUOTE s)) as Hq.
  { intros i c Hi Hc. destruct i as [|i]; [lia|].
    destruct (final_cell_is_normalized linesep h rows i j c Hj Hc) as (raw & _ & ->).
    destruct (normalize_cases linesep (fill0 raw)) as [[Hf Hn]|[Hf Hs]].
    - split; [congruence|]. intros (s & Es). exfalso. exact (Hn s Es).
    - split; [intros _; exact Hs|intros _; exact Hf]. }
  assert (column_type T m j = "nominal" <->
          exists i s, 1 <= i /\ cell T i j = Some (String DQUOTE s)) as Hnom.
  { rewrite column_type_nominal. split.
    - intros (i & H1 & Hm & Hf).
      pose proof (final_grid_in_bounds linesep h rows Hw i j Hm Hj) as Hb.
      fold T in Hb. unfold item in Hf.
      destruct (cell T i j) as [c|] eqn:Hc; [|contradiction].
      destruct (proj1 (Hq i c H1 Hc) Hf) as (s & ->). exists i, s. auto.
    - intros (i & s & H1 & Hc). exists i. split; [assumption|]. split.
      + apply cell_row_bound in Hc. unfold T, final_grid in Hc. simpl in Hc.
        rewrite length_map in Hc. exact Hc.
      + unfold item. rewrite Hc. apply is_float_dquote. }
  split.
  - rewrite <- Hnom. split; congruence.
  - split.
    + intros Hnum i c H1 Hc s Es. subst c.
      assert (column_type T m j = "nominal") as Hn.
      { apply Hnom. exists i, s. auto. }
      congruence.
    + intro Hall. f_equal. unfold column_type.
      destruct (list_contains _ _) eqn:Ec; [|reflexivity]. exfalso.
      assert (column_type T m j = "nominal") as Hn.
      { unfold column_type. rewrite Ec. reflexivity. }
      apply Hnom in Hn. destruct Hn as (i & s & H1 & Hc).
      exact (Hall i _ H1 Hc s eq_refl).
Qed.

Lemma X7_nominal_iff_quoted_witness :
  exists st,
    process nl (init_locals example_rows) = Ok (3, 3) st /\
    (nth_error (finalDataType st) 0 = Some "nominal" <->
     exists i s, 1 <= i /\ cell (allData st) i 0 = Some (String DQUOTE s)) /\
    (nth_error (finalDataType st) 0 = Some "numeric" <->
     forall i c, 1 <= i -> cell (allData st) i 0 = Some c ->
       forall s, c <> String DQUOTE s).
Proof.
  apply (X7_nominal_iff_quoted nl ["name"; "age"; "score"]
           [["Alice"; "30"; "9.5"]; ["Bob"; ""; "8"]] 0).
  - reflexivity.
  - simpl. lia.
Defined.

Lemma lower_char_idem c : Py.lower_char (Py.lower_char c) = Py.lower_char c.
Proof. destruct c as [[] [] [] [] [] [] [] []]; reflexivity. Qed.

Lemma lower_idem s : Py.lower (Py.lower s) = Py.lower s.
Proof.
  induction s as [|c s IH]; simpl; [reflexivity|].
  rewrite lower_char_idem, IH. reflexivity.
Qed.

Lemma lower_cons c s :
  Py.lower (String c s) = String c s -> Py.lower_char c = c /\ Py.lower s = s.
Proof. simpl. intro H. injection H as H1 H2. auto. Qed.

Lemma lower_lstrip chars s :
  Py.lower s = s -> Py.lower (Py.lstrip chars s) = Py.lstrip chars s.
Proof.
  induction s as [|c s IH]; intro H; [reflexivity|].
  cbn [Py.lstrip]. destruct (Py.mem_char c chars); [|exact H].
  apply IH. apply (lower_cons c s H).
Qed.

Lemma lower_rstrip chars s :
  Py.lower s = s -> Py.lower (Py.rstrip chars s) = Py.rstrip chars s.
Proof.
  induction s as [|c s IH]; intro H; [reflexivity|].
  destruct (lower_cons c s H) as [Hc Hs]. specialize (IH Hs).
  cbn [Py.rstrip]. destruct (Py.rstrip chars s) as [|d r].
  - destruct (Py.mem_char c chars); [reflexivity|]. simpl. rewrite Hc. reflexivity.
  - cbn [Py.lower] in *. rewrite Hc. f_equal. exact IH.
Qed.

Lemma lower_append a b : Py.lower (a +++ b) = Py.lower a +++ Py.lower b.
Proof. induction a as [|c a IH]; simpl; [reflexivity|]. rewrite IH. reflexivity. Qed.

Lemma lower_replace old new s :
  Py.lower new = new -> Py.lower s = s ->
  Py.lower (Py.replace_char old new s) = Py.replace_char old new s.
Proof.
  intro Hn. induction s as [|c s IH]; intro H; [reflexivity|].
  destruct (lower_cons c s H) as [Hc Hs]. cbn [Py.replace_char].
  destruct (Ascii.eqb c old).
  - rewrite lower_append, Hn, IH by assumption. reflexivity.
  - cbn [Py.lower]. rewrite Hc, IH by assumption. reflexivity.
Qed.

Lemma lower_normalize linesep c :
  Py.lower (normalize linesep c) = normalize linesep c.
Proof.
  unfold normalize. cbv zeta.
  set (v := Py.replace_char DQUOTE _ _).
  assert (Py.lower v = v) as Hv.
  { unfold v. apply lower_replace; [reflexivity|].
    apply lower_replace; [reflexivity|].
    unfold Py.strip.
    repeat (apply lower_rstrip; apply lower_lstrip). apply lower_idem. }
  destruct (Py.is_float v); [exact Hv|].
  rewrite !lower_append, Hv. reflexivity.
Qed.

Lemma normalize_same_case linesep a b :
  Py.lower a = Py.lower b ->
  normalize linesep (fill0 a) = normalize linesep (fill0 b).
Proof.
  intro H. destruct a as [|x a], b as [|y b]; try discriminate H.
  - reflexivity.
  - unfold fill0. cbn [Py.is_empty]. unfold normalize. rewrite H. reflexivity.
Qed.

(** X8.  Every data-row cell under the header ends in lower case:
    lower-casing it again changes nothing (stripping, escaping and
    quoting add no capital letter); and two source values that differ
    only in the case of their letters end as the same normalized value,
    hence as one value of a domain. *)
Theorem X8_data_cells_lower_case (linesep : str) (h : list str)
    (rows : list (list str)) :
  wideb h rows = true ->
  exists st,
    process linesep (init_locals (h :: rows))
      = Ok (List.length h, S (List.length rows)) st /\
    (forall i j c,
       1 <= i -> j < List.length h -> cell (allData st) i j = Some c ->
       Py.lower c = c) /\
    (forall i1 j1 i2 j2 raw1 raw2,
       1 <= i1 -> j1 < List.length h -> cell (h :: rows) i1 j1 = Some raw1 ->
       1 <= i2 -> j2 < List.length h -> cell (h :: rows) i2 j2 = Some raw2 ->
       Py.lower raw1 = Py.lower raw2 ->
       cell (allData st) i1 j1 = cell (allData st) i2 j2).
Proof.
  intro Hw. destruct (process_run linesep h rows Hw) as (ut & k & E).
  eexists. split; [exact E|]. cbn [allData]. split.
  - intros i j c Hi Hj Hc. destruct i as [|i]; [lia|].
    destruct (final_cell_is_normalized linesep h rows i j c Hj Hc) as (raw & _ & ->).
    apply lower_normalize.
  - intros i1 j1 i2 j2 raw1 raw2 Hi1 Hj1 Hc1 Hi2 Hj2 Hc2 Hlow.
    destruct i1 as [|i1]; [lia|]. destruct i2 as [|i2]; [lia|].
    rewrite !final_cell_data by assumption. rewrite Hc1, Hc2. cbn [option_map].
    f_equal. apply normalize_same_case. exact Hlow.
Qed.

Lemma X8_data_cells_lower_case_witness :
  exists st,
    process nl (init_locals [["answer"]; ["Yes"]; ["YES"]]) = Ok (1, 3) st /\
    (forall i j c,
       1 <= i -> j < 1 -> cell (allData st) i j = Some c -> Py.lower c = c) /\
    (forall i1 j1 i2 j2 raw1 raw2,
       1 <= i1 -> j1 < 1 -> cell [["answer"]; ["Yes"]; ["YES"]] i1 j1 = Some raw1 ->
       1 <= i2 -> j2 < 1 -> cell [["answer"]; ["Yes"]; ["YES"]] i2 j2 = Some raw2 ->
       Py.lower raw1 = Py.lower raw2 ->
       cell (allData st) i1 j1 = cell (allData st) i2 j2).
Proof.
  apply (X8_data_cells_lower_case nl ["answer"] [["Yes"]; ["YES"]]).
  reflexivity.
Defined.

(** ** The three strips of line 81 *)

Lemma lstrip_fix chars s : head_in chars s = false -> Py.lstrip chars s = s.
Proof. destruct s as [|c s]; simpl; [reflexivity|]. intros ->. reflexivity. Qed.

Lemma rstrip_fix chars s : last_in chars s = false -> Py.rstrip chars s = s.
Proof.
  induction s as [|c s IH]; intro H; [reflexivity|].
  cbn [Py.rstrip]. destruct s as [|d s].
  - simpl in *. rewrite H. reflexivity.
  - rewrite IH by exact H. reflexivity.
Qed.

Lemma head_in_lstrip chars s : head_in chars (Py.lstrip chars s) = false.
Proof.
  induction s as [|c s IH]; [reflexivity|]. cbn [Py.lstrip].
  destruct (Py.mem_char c chars) eqn:E; [exact IH|]. simpl. exact E.
Qed.

Lemma last_in_rstrip chars s : last_in chars (Py.rstrip chars s) = false.
Proof.
  induction s as [|c s IH]; [reflexivity|]. cbn [Py.rstrip].
  destruct (Py.rstrip chars s) as [|d r].
  - destruct (Py.mem_char c chars) eqn:E; [reflexivity|]. simpl. exact E.
  - exact IH.
Qed.

Lemma head_in_rstrip chars s :
  head_in chars s = false -> head_in chars (Py.rstrip chars s) = false.
Proof.
  destruct s as [|c s]; intro H; [reflexivity|]. cbn [Py.rstrip].
  simpl in H. destruct (Py.rstrip chars s); [rewrite H|]; simpl; exact H.
Qed.

Lemma strip_ends chars s :
  head_in chars (Py.strip chars s) = false /\
  last_in chars (Py.strip chars s) = false.
Proof.
  unfold Py.strip. split.
  - apply head_in_rstrip, head_in_lstrip.
  - apply last_in_rstrip.
Qed.

Lemma head_in_subset chars chars' s :
  (forall c, Py.mem_char c chars' = true -> Py.mem_char c chars = true) ->
  head_in chars s = false -> head_in chars' s = false.
Proof.
  intros Hsub. destruct s as [|c s]; simpl; [reflexivity|]. intro H.
  destruct (Py.mem_char c chars') eqn:E; [|reflexivity].
  rewrite (Hsub c E) in H. discriminate.
Qed.

Lemma last_in_subset chars chars' s :
  (forall c, Py.mem_char c chars' = true -> Py.mem_char c chars = true) ->
  last_in chars s = false -> last_in chars' s = false.
Proof.
  intros Hsub. induction s as [|c s IH]; [reflexivity|].
  destruct s as [|d s].
  - simpl. intro H. destruct (Py.mem_char c chars') eqn:E; [|reflexivity].
    rewrite (Hsub c E) in H. discriminate.
  - exact IH.
Qed.

Lemma strip_after_strip chars chars' s :
  (forall c, Py.mem_char c chars' = true -> Py.mem_char c chars = true) ->
  Py.strip chars' (Py.strip chars s) = Py.strip chars s.
Proof.
  intro Hsub. destruct (strip_ends chars s) as [Hh Hl].
  unfold Py.strip at 1.
  rewrite lstrip_fix by (eapply head_in_subset; eassumption).
  apply rstrip_fix. eapply last_in_subset; eassumption.
Qed.

(** X9.  How the three strips of line 81 combine.  On POSIX, where
    [os.linesep] is a line feed, the first strip adds nothing to the
    second; the value that results neither begins nor ends with a
    carriage return.  On Windows, where [os.linesep] is a carriage
    return and a line feed, the first strip removes every carriage
    return and line feed at the two ends and the other two strips
    change nothing; the value that results neither begins nor ends with
    either character. *)
Theorem X9_strips_combine (s : str) :
  (Py.strip (chr CR) (Py.strip (chr LF) (Py.strip (linesep_of Posix) s))
     = Py.strip (chr CR) (Py.strip (chr LF) s) /\
   head_in (chr CR) (Py.strip (chr CR) (Py.strip (chr LF) s)) = false /\
   last_in (chr CR) (Py.strip (chr CR) (Py.strip (chr LF) s)) = false) /\
  (Py.strip (chr CR) (Py.strip (chr LF) (Py.strip (linesep_of Nt) s))
     = Py.strip (linesep_of Nt) s /\
   head_in (String CR (chr LF)) (Py.strip (linesep_of Nt) s) = false /\
   last_in (String CR (chr LF)) (Py.strip (linesep_of Nt) s) = false).
Proof.
  split; split.
  - simpl linesep_of. rewrite (strip_after_strip (chr LF) (chr LF)); auto.
  - apply strip_ends.
  - rewrite (strip_after_strip (linesep_of Nt) (chr LF)).
    + apply strip_after_strip. intros c. simpl.
      rewrite !orb_false_r. intros ->. reflexivity.
    + intros c. simpl. rewrite !orb_false_r. intros ->. apply orb_true_r.
  - apply strip_ends.
Qed.

(** ** Escaped quotes *)

Lemma guarded_replace_same q prev s :
  q <> BACKSLASH ->
  guarded q prev (Py.replace_char q (String BACKSLASH (chr q)) s) = true.
Proof.
  intro Hq. revert prev. induction s as [|c s IH]; intro prev; [reflexivity|].
  cbn [Py.replace_char]. destruct (Ascii.eqb_spec c q) as [->|Hc].
  - cbn [String.append chr guarded].
    assert (Ascii.eqb BACKSLASH q = false) as ->
      by (apply Ascii.eqb_neq; congruence).
    rewrite !Ascii.eqb_refl. simpl. apply IH.
  - cbn [guarded].
    assert (Ascii.eqb c q = false) as -> by (apply Ascii.eqb_neq; assumption).
    simpl. apply IH.
Qed.

Lemma guarded_replace_other q q' prev s :
  q <> BACKSLASH -> q <> q' ->
  guarded q prev s = true ->
  guarded q prev (Py.replace_char q' (String BACKSLASH (chr q')) s) = true.
Proof.
  intros Hq Hqq. revert prev. induction s as [|c s IH]; intros prev H; [reflexivity|].
  cbn [guarded] in H. apply andb_true_iff in H. destruct H as [H1 H2].
  cbn [Py.replace_char]. destruct (Ascii.eqb_spec c q') as [->|Hc].
  - cbn [String.append chr guarded].
    assert (Ascii.eqb BACKSLASH q = false) as ->
      by (apply Ascii.eqb_neq; congruence).
    assert (Ascii.eqb q' q = false) as ->
      by (apply Ascii.eqb_neq; congruence).
    simpl. apply IH. exact H2.
  - cbn [guarded]. rewrite H1. simpl. apply IH. exact H2.
Qed.

(** X10.  In every data-row cell under the header, each single quote
    and each double quote of the value comes directly after a
    backslash; the only bare quotes are the two double quotes the pass
    wraps around a value that is not a number. *)
Theorem X10_quotes_follow_backslash (linesep : str) (h : list str)
    (rows : list (list str)) :
  wideb h rows = true ->
  exists st,
    process linesep (init_locals (h :: rows))
      = Ok (List.length h, S (List.length rows)) st /\
    forall i j c,
      1 <= i -> j < List.length h -> cell (allData st) i j = Some c ->
      exists v,
        (c = v /\ Py.is_float v = true \/
         c = chr DQUOTE +++ v +++ chr DQUOTE /\ Py.is_float v = false) /\
        guarded SQUOTE NUL v = true /\
        guarded DQUOTE NUL v = true.
Proof.
  intro Hw. destruct (process_run linesep h rows Hw) as (ut & k & E).
  eexists. split; [exact E|]. cbn [allData].
  intros i j c Hi Hj Hc. destruct i as [|i]; [lia|].
  destruct (final_cell_is_normalized linesep h rows i j c Hj Hc) as (raw & _ & ->).
  unfold normalize. cbv zeta.
  set (t := Py.strip (chr CR) _).
  exists (Py.replace_char DQUOTE (String BACKSLASH (chr DQUOTE))
            (Py.replace_char SQUOTE (String BACKSLASH (chr SQUOTE)) t)).
  split; [|split].
  - destruct (Py.is_float _) eqn:Ev; [left|right]; split; reflexivity || exact Ev.
  - apply (guarded_replace_other SQUOTE DQUOTE); try discriminate.
    apply (guarded_replace_same SQUOTE). discriminate.
  - apply (guarded_replace_same DQUOTE). discriminate.
Qed.

Lemma X10_quotes_follow_backslash_witness :
  exists st,
    process nl (init_locals [["who"]; ["O'Neil"]]) = Ok (1, 2) st /\
    forall i j c,
      1 <= i -> j < 1 -> cell (allData st) i j = Some c ->
      exists v,
        (c = v /\ Py.is_float v = true \/
         c = chr DQUOTE +++ v +++ chr DQUOTE /\ Py.is_float v = false) /\
        guarded SQUOTE NUL v = true /\
        guarded DQUOTE NUL v = true.
Proof.
  apply (X10_quotes_follow_backslash nl ["who"] [["O'Neil"]]).
  reflexivity.
Defined.

(** ** Invariants of the passes *)

Lemma norm_row_length linesep n r :
  List.length (norm_row linesep n r) = List.length r.
Proof.
  unfold norm_row. rewrite length_app, length_map.
  rewrite <- (firstn_skipn n r) at 3. rewrite length_app. reflexivity.
Qed.

Lemma nth_map_length {A} (f : list A -> list A) (l : list (list A)) i :
  (forall r, List.length (f r) = List.length r) ->
  List.length (nth i (map f l) []) = List.length (nth i l []).
Proof.
  intro Hf. revert i. induction l as [|r l IH]; intros [|i]; simpl; auto.
Qed.

(** X11.  The passes keep the shape of the grid: on a grid with no row
    shorter than the header, the grid that is written has as many rows
    as the grid that was read, and each row has as many fields as it
    had; cells are rewritten in place, none is added or dropped. *)
Theorem X11_shape_preserved (linesep : str) (h : list str)
    (rows : list (list str)) :
  wideb h rows = true ->
  exists st,
    process linesep (init_locals (h :: rows))
      = Ok (List.length h, S (List.length rows)) st /\
    List.length (allData st) = List.length (h :: rows) /\
    forall i,
      List.length (nth i (allData st) []) = List.length (nth i (h :: rows) []).
Proof.
  intro Hw. destruct (process_run linesep h rows Hw) as (ut & k & E).
  eexists. split; [exact E|]. cbn [allData]. unfold final_grid. split.
  - simpl. rewrite length_map. reflexivity.
  - intros [|i]; cbn [nth].
    + apply length_map.
    + apply nth_map_length. apply norm_row_length.
Qed.

Lemma X11_shape_preserved_witness :
  exists st,
    process nl (init_locals [["id"]; ["7"; "Extra"; ""]; ["8"]]) = Ok (1, 3) st /\
    List.length (allData st) = List.length [["id"]; ["7"; "Extra"; ""]; ["8"]] /\
    forall i,
      List.length (nth i (allData st) [])
      = List.length (nth i [["id"]; ["7"; "Extra"; ""]; ["8"]] []).
Proof.
  apply (X11_shape_preserved nl ["id"] [["7"; "Extra"; ""]; ["8"]]).
  reflexivity.
Defined.

Lemma flat_map_blocks_length {A} (g : nat -> nat -> A) n l :
  List.length (flat_map (fun i => map (g i) (range 0 n)) l) = List.length l * n.
Proof.
  induction l as [|i l IH]; simpl; [reflexivity|].
  rewrite length_app, length_map, IH. unfold range.
  rewrite length_seq, Nat.sub_0_r. reflexivity.
Qed.

(** X12.  When lines 67-120 end, the lists they built have their
    expected sizes: one cell type per data cell under the header
    ([totalCols] for each data row), and one brace list, one column
    type and one domain text per header field; the temporary lists
    [columnsTemp] and [dataTypeTemp] are empty again.  This is why the
    reads [dataType[p]], [uniqueOfColumn[i]] and [attTypes[i]] never
    leave their lists. *)
Theorem X12_list_sizes (linesep : str) (h : list str) (rows : list (list str)) :
  wideb h rows = true ->
  exists st,
    process linesep (init_locals (h :: rows))
      = Ok (List.length h, S (List.length rows)) st /\
    List.length (dataType st) = List.length rows * List.length h /\
    List.length (uniqueOfColumn st) = List.length h /\
    List.length (finalDataType st) = List.length h /\
    List.length (attTypes st) = List.length h /\
    columnsTemp st = [] /\
    dataTypeTemp st = [].
Proof.
  intro Hw. destruct (process_run linesep h rows Hw) as (ut & k & E).
  eexists. split; [exact E|].
  cbn [dataType uniqueOfColumn finalDataType attTypes columnsTemp dataTypeTemp].
  repeat split.
  - unfold cell_types. rewrite flat_map_blocks_length. unfold range.
    rewrite length_seq. simpl. rewrite Nat.sub_0_r. reflexivity.
  - unfold unique_texts, range. rewrite length_map, length_seq. apply Nat.sub_0_r.
  - unfold column_types, range. rewrite length_map, length_seq. apply Nat.sub_0_r.
  - apply att_texts_length.
Qed.

Lemma X12_list_sizes_witness :
  exists st,
    process nl (init_locals example_rows) = Ok (3, 3) st /\
    List.length (dataType st) = 2 * 3 /\
    List.length (uniqueOfColumn st) = 3 /\
    List.length (finalDataType st) = 3 /\
    List.length (attTypes st) = 3 /\
    columnsTemp st = [] /\
    dataTypeTemp st = [].
Proof.
  apply (X12_list_sizes nl ["name"; "age"; "score"]
           [["Alice"; "30"; "9.5"]; ["Bob"; ""; "8"]]).
  reflexivity.
Defined.

Lemma uniq_NoDup_id l : NoDup l -> uniq l = l.
Proof.
  induction l as [|k l IH] using rev_ind; intro H; [reflexivity|].
  apply NoDup_remove in H. rewrite app_nil_r in H. destruct H as [Hl Hk].
  rewrite uniq_snoc.
  destruct (Py.dict_has (Py.dict_fromkeys l) k) eqn:E.
  - exfalso. apply Hk. apply dict_has_In in E. apply (uniq_In l k). exact E.
  - rewrite IH by assumption. reflexivity.
Qed.

(** X13.  When the normalized data-row cells of a nominal column are
    pairwise different, the emitted domain lists them all in row order:
    [dict.fromkeys] then drops nothing and reorders nothing. *)
Theorem X13_distinct_values_domain (linesep : str) (h : list str)
    (rows : list (list str)) (j : nat) :
  wideb h rows = true ->
  j < List.length h ->
  exists st,
    process linesep (init_locals (h :: rows))
      = Ok (List.length h, S (List.length rows)) st /\
    (nth_error (finalDataType st) j = Some "nominal" ->
     NoDup (map (fun r => nth j r "") (tl (allData st))) ->
     nth_error (attTypes st) j =
     Some ("{" +++ Py.join "," (map (fun r => nth j r "") (tl (allData st))) +++ "}")).
Proof.
  intros Hw Hj.
  destruct (process_run linesep h rows Hw) as (ut & k & E).
  eexists. split; [exact E|].
  cbn [attTypes finalDataType allData].
  unfold column_types. rewrite nth_error_map_range by assumption.
  intros Hnom Hnd.
  assert (column_type (final_grid linesep h rows) (S (List.length rows)) j
          = "nominal") as Hn by congruence.
  rewrite att_texts_nth by assumption. rewrite Hn. simpl String.eqb. cbv iota.
  rewrite column_tail by assumption. unfold brace.
  fold (uniq (map (fun r => nth j r "") (tl (final_grid linesep h rows)))).
  rewrite uniq_NoDup_id by assumption. reflexivity.
Qed.

Lemma X13_distinct_values_domain_witness :
  exists st,
    process nl (init_locals example_rows) = Ok (3, 3) st /\
    (nth_error (finalDataType st) 0 = Some "nominal" ->
     NoDup (map (fun r => nth 0 r "") (tl (allData st))) ->
     nth_error (attTypes st) 0 =
     Some ("{" +++ Py.join "," (map (fun r => nth 0 r "") (tl (allData st))) +++ "}")).
Proof.
  apply (X13_distinct_values_domain nl ["name"; "age"; "score"]
           [["Alice"; "30"; "9.5"]; ["Bob"; ""; "8"]] 0).
  - reflexivity.
  - simpl. lia.
Defined.
